(** * suite2p/io/server.py: dispatching planes to a remote server

    A shallow embedding of [unix_path], [ssh_connect] and [send_jobs] and of
    the library behaviour they rely on ([pathlib], [str.replace], [natsort],
    [paramiko]'s SFTP client), followed by the properties of the dispatch
    protocol. *)

From Stdlib Require Import ZArith QArith Qround Ascii String Lia.
From stdpp Require Import base tactics option list strings gmap pretty.

Local Open Scope Z_scope.
Local Open Scope string_scope.
Local Open Scope list_scope.

(** ** Python strings *)

Module PyStr.

  (** [s.replace(old, new)] for a one-character [old] ([os.sep] is one
      character on every host). *)
Fixpoint replace (old : ascii) (new : string) (s : string) : string :=
    match s with
    | EmptyString => EmptyString
    | String c s' =>
        if Ascii.eqb c old then new +:+ replace old new s'
        else String c (replace old new s')
    end.

  (** [c in s] *)
Fixpoint contains (c : ascii) (s : string) : bool :=
    match s with
    | EmptyString => false
    | String c' s' => Ascii.eqb c' c || contains c s'
    end.

  (** [s.split(c)]: the pieces between the occurrences of [c]; never empty. *)
Fixpoint split (c : ascii) (s : string) : list string :=
    match s with
    | EmptyString => [EmptyString]
    | String c' s' =>
        if Ascii.eqb c' c then EmptyString :: split c s'
        else match split c s' with
             | [] => [String c' EmptyString]
             | x :: xs => String c' x :: xs
             end
    end.

  (** [c.join(l)] *)
Fixpoint join (c : string) (l : list string) : string :=
    match l with
    | [] => EmptyString
    | [x] => x
    | x :: l' => x +:+ c +:+ join c l'
    end.

  (** [s.lstrip(c)] *)
Fixpoint lstrip (c : ascii) (s : string) : string :=
    match s with
    | EmptyString => EmptyString
    | String c' s' => if Ascii.eqb c' c then lstrip c s' else s
    end.

  (** [s[i:]] and [s[i:j]] for [0 <= i <= j] *)
Fixpoint slice_from (i : nat) (s : string) : string :=
    match i, s with
    | O, _ => s
    | S _, EmptyString => EmptyString
    | S i', String _ s' => slice_from i' s'
    end.

Fixpoint slice_to (j : nat) (s : string) : string :=
    match j, s with
    | O, _ => EmptyString
    | S _, EmptyString => EmptyString
    | S j', String c s' => String c (slice_to j' s')
    end.

Definition slice (i j : nat) (s : string) : string :=
    slice_to (j - i) (slice_from i s).

  (** [s.find(c, start)], [None] for [-1] *)
Fixpoint find_from (c : ascii) (start : nat) (s : string) : option nat :=
    match s with
    | EmptyString => None
    | String c' s' =>
        match start with
        | O => if Ascii.eqb c' c then Some O else S <$> find_from c O s'
        | S start' => S <$> find_from c start' s'
        end
    end.

Definition is_digit (c : ascii) : bool :=
    let n := nat_of_ascii c in (48 <=? n)%nat && (n <=? 57)%nat.

Definition is_letter (c : ascii) : bool :=
    let n := nat_of_ascii c in
    ((65 <=? n)%nat && (n <=? 90)%nat) || ((97 <=? n)%nat && (n <=? 122)%nat).

Definition lower_char (c : ascii) : ascii :=
    let n := nat_of_ascii c in
    if (65 <=? n)%nat && (n <=? 90)%nat then ascii_of_nat (n + 32) else c.

  (** [s.lower()] on ASCII text *)
Fixpoint lower (s : string) : string :=
    match s with
    | EmptyString => EmptyString
    | String c s' => String (lower_char c) (lower s')
    end.

Definition is_space (c : ascii) : bool :=
    let n := nat_of_ascii c in ((9 <=? n)%nat && (n <=? 13)%nat) || (n =? 32)%nat.

Fixpoint rev_string (acc s : string) : string :=
    match s with
    | EmptyString => acc
    | String c s' => rev_string (String c acc) s'
    end.

Fixpoint lstrip_space (s : string) : string :=
    match s with
    | EmptyString => EmptyString
    | String c s' => if is_space c then lstrip_space s' else s
    end.

  (** [s.strip()] *)
Definition strip (s : string) : string :=
    rev_string "" (lstrip_space (rev_string "" (lstrip_space s))).

  (** The digits of a base-10 literal, most significant first; one
      underscore is allowed between two digits. [prev] tells whether the
      previous character was a digit. *)
Fixpoint digits_value (prev : bool) (acc : Z) (s : string) : option Z :=
    match s with
    | EmptyString => if prev then Some acc else None
    | String c s' =>
        if is_digit c then
          digits_value true (10 * acc + (Z.of_nat (nat_of_ascii c) - 48)) s'
        else if Ascii.eqb c "_" && prev then digits_value false acc s'
        else None
    end.

  (** [int(s)] on ASCII text: surrounding white space, an optional sign,
      decimal digits. [None] stands for [ValueError]. *)
Definition int (s : string) : option Z :=
    match strip s with
    | String "-" s' => Z.opp <$> digits_value false 0 s'
    | String "+" s' => digits_value false 0 s'
    | s' => digits_value false 0 s'
    end.

  (** ["%d" % z] *)
Definition fmt_d (z : Z) : string := pretty z.

End PyStr.

(** ** pathlib

    Pure paths as [pathlib] (Python 3.11 and earlier) parses, joins and
    prints them, for the POSIX and the Windows flavour. The Windows
    extended-path prefix is not interpreted. *)

Inductive flavour : Type := Posix | Windows.

Module PurePath.

Definition sep (fl : flavour) : ascii :=
    match fl with Posix => "/"%char | Windows => "\"%char end.

Definition altsep (fl : flavour) : option ascii :=
    match fl with Posix => None | Windows => Some "/"%char end.

Definition casefold (fl : flavour) (s : string) : string :=
    match fl with Posix => s | Windows => PyStr.lower s end.

  (** A parsed path: drive, root and the names below them. *)
Record t : Type := mk { drv : string; root : string; names : list string }.

Definition sep_str (fl : flavour) : string := String (sep fl) "".

  (** [_PosixFlavour.splitroot] *)
Definition splitroot_posix (part : string) : string * string * string :=
    match part with
    | String c _ =>
        if Ascii.eqb c "/" then
          let stripped_part := PyStr.lstrip "/" part in
          if (String.length part - String.length stripped_part =? 2)%nat
          then ("", "//", stripped_part)
          else ("", "/", stripped_part)
        else ("", "", part)
    | EmptyString => ("", "", part)
    end.

Definition char_is (c : ascii) (s : string) : bool :=
    match s with String c' EmptyString => Ascii.eqb c' c | _ => false end.

  (** [_WindowsFlavour.splitroot], with an empty extended-path prefix *)
Definition splitroot_windows (part : string) : string * string * string :=
    let sep := "\"%char in
    let first := PyStr.slice 0 1 part in
    let second := PyStr.slice 1 2 part in
    let third := PyStr.slice 2 3 part in
    let unc :=
      if char_is sep second && char_is sep first && negb (char_is sep third) then
        match PyStr.find_from sep 2 part with
        | Some index =>
            let index2 := PyStr.find_from sep (index + 1) part in
            if negb (bool_decide (index2 = Some (index + 1)%nat)) then
              let index2 := default (String.length part) index2 in
              Some (PyStr.slice 0 index2 part, String sep "",
                    PyStr.slice_from (index2 + 1) part)
            else None
        | None => None
        end
      else None in
    match unc with
    | Some r => r
    | None =>
        let '(drv, part, first) :=
          if char_is ":" second &&
             match first with String c _ => PyStr.is_letter c | _ => false end
          then (PyStr.slice 0 2 part, PyStr.slice_from 2 part, third)
          else ("", part, first) in
        if char_is sep first
        then (drv, first, PyStr.lstrip sep part)
        else (drv, "", part)
    end.

Definition splitroot (fl : flavour) (part : string) : string * string * string :=
    match fl with
    | Posix => splitroot_posix part
    | Windows => splitroot_windows part
    end.

  (** [part.replace(altsep, sep)] when the flavour has an [altsep] *)
Definition normsep (fl : flavour) (part : string) : string :=
    match altsep fl with
    | Some a => PyStr.replace a (sep_str fl) part
    | None => part
    end.

  (** The names of one argument: the pieces of [rel] that are neither empty
      nor ["."]. *)
Definition rel_names (fl : flavour) (rel : string) : list string :=
    filter (fun x => x <> "" /\ x <> ".") (PyStr.split (sep fl) rel).

  (** The drive [parse_parts] borrows from the arguments before an argument
      that has a root and no drive; [before] is in reverse order. *)
Fixpoint borrow_drive (fl : flavour) (before : list string) : string :=
    match before with
    | [] => ""
    | part :: before' =>
        if bool_decide (part = "") then borrow_drive fl before'
        else
          let d := (splitroot fl (normsep fl part)).1.1 in
          if bool_decide (d = "") then borrow_drive fl before' else d
    end.

  (** [parse_parts], over the arguments in reverse order (the source loops
      over [reversed(parts)]): the names collected so far are [acc]. *)
Fixpoint parse_rev (fl : flavour) (rparts : list string) (acc : list string) : t :=
    match rparts with
    | [] => mk "" "" acc
    | part :: before =>
        if bool_decide (part = "") then parse_rev fl before acc
        else
          let '(d, r, rel) := splitroot fl (normsep fl part) in
          let acc' := rel_names fl rel ++ acc in
          if bool_decide (d = "") && bool_decide (r = "")
          then parse_rev fl before acc'
          else
            let d' := if bool_decide (d = "") then borrow_drive fl before else d in
            mk d' r acc'
    end.

  (** [Path] applied to the argument strings [args] *)
Definition Path (fl : flavour) (args : list string) : t :=
    parse_rev fl (rev args) [].

Definition anchor (p : t) : string := drv p +:+ root p.

  (** [p.parts] *)
Definition parts (p : t) : list string :=
    if bool_decide (anchor p = "") then names p else anchor p :: names p.

  (** [str(p)] *)
Definition str (fl : flavour) (p : t) : string :=
    let s := anchor p +:+ PyStr.join (sep_str fl) (names p) in
    if bool_decide (s = "") then "." else s.

  (** [join_parsed_parts], the core of [p / q] *)
Definition join_parsed_parts (fl : flavour) (p q : t) : t :=
    if negb (bool_decide (root q = "")) then
      if bool_decide (drv q = "") && negb (bool_decide (drv p = ""))
      then mk (drv p) (root q) (names q)
      else q
    else if negb (bool_decide (drv q = "")) then
      if bool_decide (drv q = drv p) ||
         bool_decide (casefold fl (drv q) = casefold fl (drv p))
      then mk (drv p) (root p) (names p ++ names q)
      else q
    else mk (drv p) (root p) (names p ++ names q).

  (** [p / q] for a path [q], and [p / s] for a string [s] *)
Definition div (fl : flavour) (p q : t) : t :=
    join_parsed_parts fl p (Path fl (parts q)).

Definition div_str (fl : flavour) (p : t) (s : string) : t :=
    join_parsed_parts fl p (Path fl [s]).

  (** [p.is_absolute()] *)
Definition is_absolute (fl : flavour) (p : t) : bool :=
    negb (bool_decide (root p = "")) &&
    match fl with Posix => true | Windows => negb (bool_decide (drv p = "")) end.

End PurePath.

(** [os.sep] *)
Definition os_sep (fl : flavour) : ascii := PurePath.sep fl.

(** [unix_path]: [str(path).replace(os.sep, "/")] *)
Definition unix_path (fl : flavour) (path : PurePath.t) : string :=
  PyStr.replace (os_sep fl) "/" (PurePath.str fl path).

(** A Python number: the memory multiplier may be an [int] or a [float]. *)
Inductive pynum : Type := PyInt (z : Z) | PyFloat (q : Q).

(** ** natsort

    [natsorted] with its default algorithm ([ns.INT], unsigned): a string is
    cut into maximal runs of digits and of other characters, the digit runs
    are read as numbers, and the strings are sorted by the resulting tuples
    with Python's stable [sorted]. *)

Module Natsort.

Inductive chunk : Type := Txt (s : string) | Num (n : N).

(** Maximal runs, each with the flag "made of digits". *)
Fixpoint split_runs (s : string) : list (bool * string) :=
  match s with
  | EmptyString => []
  | String c s' =>
      let d := PyStr.is_digit c in
      match split_runs s' with
      | (d', r) :: rest =>
          if Bool.eqb d d' then (d, String c r) :: rest
          else (d, String c "") :: (d', r) :: rest
      | [] => [(d, String c "")]
      end
  end.

Fixpoint digits_N (acc : N) (s : string) : N :=
  match s with
  | EmptyString => acc
  | String c s' => digits_N (10 * acc + (N.of_nat (nat_of_ascii c) - 48))%N s'
  end.

Definition to_chunk (r : bool * string) : chunk :=
  if r.1 then Num (digits_N 0 r.2) else Txt r.2.

(** [sep_inserter]: a key that starts with a number gets an empty string in
    front, so that strings and numbers sit at the same positions in every
    key. *)
Definition sep_inserter (k : list chunk) : list chunk :=
  match k with
  | Num n :: _ => Txt "" :: k
  | _ => k
  end.

Definition natsort_key (s : string) : list chunk :=
  sep_inserter (to_chunk <$> split_runs s).

(** Python's order on the elements of a key; a string and a number never
    meet at the same position of two keys. *)
Definition chunk_compare (a b : chunk) : comparison :=
  match a, b with
  | Txt x, Txt y => String.compare x y
  | Num x, Num y => N.compare x y
  | Txt _, Num _ => Lt
  | Num _, Txt _ => Gt
  end.

(** Python's order on tuples. *)
Fixpoint key_compare (k1 k2 : list chunk) : comparison :=
  match k1, k2 with
  | [], [] => Eq
  | [], _ :: _ => Lt
  | _ :: _, [] => Gt
  | a :: k1', b :: k2' =>
      match chunk_compare a b with
      | Eq => key_compare k1' k2'
      | c => c
      end
  end.

Definition key_le (k1 k2 : list chunk) : bool :=
  match key_compare k1 k2 with Gt => false | _ => true end.

(** [sorted(l, key=key)], stable: an element goes in front of the first
    element that is not smaller. *)
Fixpoint insert_by {A} (key : A -> list chunk) (x : A) (l : list A) : list A :=
  match l with
  | [] => [x]
  | y :: l' =>
      if key_le (key x) (key y) then x :: y :: l'
      else y :: insert_by key x l'
  end.

Definition sorted_by {A} (key : A -> list chunk) (l : list A) : list A :=
  foldr (insert_by key) [] l.

Definition natsorted (l : list string) : list string :=
  sorted_by natsort_key l.

(** [sorted(l)] on strings, by code points: what a lexical sort would give. *)
Fixpoint insert_lex (x : string) (l : list string) : list string :=
  match l with
  | [] => [x]
  | y :: l' =>
      if String.leb x y then x :: y :: l' else y :: insert_lex x l'
  end.

Definition sorted_lex (l : list string) : list string :=
  foldr insert_lex [] l.

End Natsort.

(** ** Floats

    A [float] is the rational it denotes; every operation rounds its exact
    result with [rnd], the rounding to the nearest [float]. Infinities and
    NaN are outside the model. *)

Module PyFloat.

(** [float(n)] *)
Definition of_num (rnd : Q -> Q) (n : pynum) : Q :=
  match n with
  | PyInt z => rnd (inject_Z z)
  | PyFloat q => q
  end.

Definition truediv (rnd : Q -> Q) (a b : Q) : Q := rnd (a / b)%Q.

Definition mul (rnd : Q -> Q) (a b : Q) : Q := rnd (a * b)%Q.

(** [int(x)]: towards zero *)
Definition to_int (x : Q) : Z :=
  if Qle_bool 0%Q x then Qfloor x else Qceiling x.

End PyFloat.

(** ** Exceptions, values and the outside world *)

Inductive errno : Type := ENOENT | EACCES.

(** The exceptions the module can meet. [IOError] is [OSError] (Python 3);
    [paramiko]'s SFTP client reports every failure status of the server as
    an [IOError]: with [ENOENT] for a missing path, with [EACCES] for a
    refused permission, without an errno otherwise. *)
Inductive pyexn : Type :=
| OSError (code : option errno) (msg : string)
| SSHException (msg : string)
| AuthenticationException (msg : string)
| EOFError
| KeyError (key : string)
| IndexError
| ValueError
| TypeError
| ImportError (msg : string)
| Exception (msg : string)
| KeyboardInterrupt
| SystemExit (code : Z).

(** [isinstance(e, IOError)] *)
Definition is_IOError (e : pyexn) : bool :=
  match e with OSError _ _ => true | _ => false end.

(** [isinstance(e, paramiko.AuthenticationException)] *)
Definition is_AuthenticationException (e : pyexn) : bool :=
  match e with AuthenticationException _ => true | _ => false end.

(** The values of an [ops] dictionary. *)
Inductive value : Type :=
| VStr (s : string)
| VInt (z : Z)
| VBool (b : bool)
| VNone.

(** A [str] or a [Path] where either is accepted. *)
Inductive pathlike : Type :=
| PStr (s : string)
| PPath (p : PurePath.t).

(** What the program does to the outside world, in order. *)
Inductive event : Type :=
| Print (line : string)
| PrintBinarySize (gb : Q)
| Connect (host username password : string)
| Sleep (seconds : Z)
| Makedirs (path : string)
| WriteFile (path content : string)
| ExecCommand (cmd : string)
| OpenSftp
| SftpPut (localpath : pathlike) (remotepath : string)
| SftpStat (path : string)
| SftpMkdir (path : string)
| SftpClose
| NpLoad (path : string)
| NpSave (path : string) (op : gmap string value)
| Getsize (path : string)
| SshClose.

(** The state the program threads: the events so far, the directories of
    the server, and the [ops.npy] files of the local disk. *)
Record state : Type := mkState {
  trace : list event;
  remote_dirs : gset string;
  ops_files : gmap string (gmap string value)
}.

(** Everything the program asks of its environment. [fault] lets any
    operation on the outside world fail: it sees the events so far and the
    operation attempted. [fround] rounds a rational to the nearest [float]. *)
Record world : Type := mkWorld {
  os_flavour : flavour;
  HAS_PARAMIKO : bool;
  path_home : string;
  connect_outcome : nat -> option pyexn;
  glob_glob : string -> list string;
  getsize : string -> option Z;
  exec_stdout : string -> string;
  fault : list event -> event -> option pyexn;
  fround : Q -> Q
}.

(** ** The monad of the embedding: state, exceptions and fuel *)

Inductive result (A : Type) : Type :=
| Ret (a : A)
| Raise (e : pyexn)
| Diverge.
Arguments Ret {A} a.
Arguments Raise {A} e.
Arguments Diverge {A}.

Definition M (A : Type) : Type := state -> state * result A.

Definition ret {A} (a : A) : M A := fun st => (st, Ret a).

Definition bind {A B} (m : M A) (f : A -> M B) : M B :=
  fun st =>
    match m st with
    | (st', Ret a) => f a st'
    | (st', Raise e) => (st', Raise e)
    | (st', Diverge) => (st', Diverge)
    end.

Definition raise {A} (e : pyexn) : M A := fun st => (st, Raise e).

Definition diverge {A} : M A := fun st => (st, Diverge).

(** [try: body  except ...: handler]: [handler e] is the clause that
    catches [e], if any. An exception raised by the clause itself leaves the
    statement. *)
Definition try_except {A} (body : M A) (handler : pyexn -> option (M A)) : M A :=
  fun st =>
    match body st with
    | (st', Raise e) =>
        match handler e with
        | Some h => h st'
        | None => (st', Raise e)
        end
    | r => r
    end.

Declare Scope py_scope.
Delimit Scope py_scope with py.
Notation "x <- m ;; k" := (bind m (fun x => k))
  (at level 100, m at next level, right associativity) : py_scope.
Notation "m ;; k" := (bind m (fun _ => k))
  (at level 100, right associativity) : py_scope.
Notation "'when' b 'then' m" := (if b then m else ret tt)
  (at level 100, b at next level, right associativity) : py_scope.

Local Open Scope py_scope.

Definition log (e : event) : M unit :=
  fun st => (mkState (trace st ++ [e]) (remote_dirs st) (ops_files st), Ret tt).

(** [sys.exit(code)] *)
Definition sys_exit {A} (code : Z) : M A := raise (SystemExit code).

Definition print (line : string) : M unit := log (Print line).

Definition of_option {A} (e : pyexn) (o : option A) : M A :=
  match o with Some a => ret a | None => raise e end.

(** [d[k]] *)
Definition getitem (d : gmap string value) (k : string) : M value :=
  of_option (KeyError k) (d !! k).

(** [k in d] *)
Definition has_key (d : gmap string value) (k : string) : bool :=
  bool_decide (is_Some (d !! k)).

Section Server.

Context (w : world).

Local Abbreviation fl := (os_flavour w).

  (** An operation on the outside world: it is recorded, and it fails when
      the environment says so. *)
Definition perform (e : event) : M unit :=
    fun st =>
      match fault w (trace st) e with
      | Some x => (mkState (trace st ++ [e]) (remote_dirs st) (ops_files st), Raise x)
      | None => (mkState (trace st ++ [e]) (remote_dirs st) (ops_files st), Ret tt)
      end.

  (** *** [ssh_connect] *)

  (** [ssh.connect(host, username=username, password=password)], the
      attempt number [i] (from 0) of the call of [ssh_connect]. *)
Definition ssh_client_connect (host username password : string) (i : nat) : M unit :=
    log (Connect host username password) ;;
    match connect_outcome w i with
    | Some e => raise e
    | None => ret tt
    end.

  (** One turn of the [while True] loop: [inl tt] when the loop is left by
      [break], [inr i'] when it goes round again with the counter at [i']. *)
Definition ssh_connect_body (host username password : string) (verbose : bool)
      (i : nat) : M (unit + nat) :=
    (when verbose then
       print ("Trying to connect to " +:+ host +:+ " (attempt " +:+
              PyStr.fmt_d (Z.of_nat i + 1) +:+ "/30)")) ;;
    r <- try_except
           (ssh_client_connect host username password i ;;
            (when verbose then print ("Connected to " +:+ host)) ;;
            ret (inl tt))
           (fun e =>
              if is_AuthenticationException e then
                Some (print ("Authentication failed when connecting to " +:+ host) ;;
                      sys_exit 1)
              else
                Some (print ("Could not SSH to " +:+ host +:+
                             ", waiting for it to start") ;;
                      let i := S i in
                      log (Sleep 2) ;;
                      ret (inr i))) ;;
    match r with
    | inl tt => ret (inl tt)
    | inr i =>
        if bool_decide (i = 30%nat) then
          print ("Could not connect to " +:+ host +:+ ". Giving up") ;;
          sys_exit 1
        else ret (inr i)
    end.

Fixpoint ssh_connect_loop (fuel : nat) (host username password : string)
      (verbose : bool) (i : nat) : M unit :=
    match fuel with
    | O => diverge
    | S fuel' =>
        r <- ssh_connect_body host username password verbose i ;;
        match r with
        | inl tt => ret tt
        | inr i' => ssh_connect_loop fuel' host username password verbose i'
        end
    end.

  (** [ssh_connect(host, username, password, verbose)]; the value returned
      stands for the connected client. *)
Definition ssh_connect (fuel : nat) (host username password : string)
      (verbose : bool) : M unit :=
    let i := 0%nat in
    ssh_connect_loop fuel host username password verbose i.

(** *** [send_jobs]: the translation of the paths (lines 59 to 64) *)

(** [len(Path(local_root).parts)] *)
Definition nparts (local_root : string) : nat :=
  length (PurePath.parts (PurePath.Path fl [local_root])).

(** [save_folder_server]: the parts of [Path(save_folder)] from [nparts]
    on, made a path again and joined to [Path(server_root)] *)
Definition save_folder_server (local_root server_root save_folder : string)
    : PurePath.t :=
  let save_folder_server :=
    PurePath.Path fl
      (drop (nparts local_root) (PurePath.parts (PurePath.Path fl [save_folder]))) in
  PurePath.div fl (PurePath.Path fl [server_root]) save_folder_server.

(** [save_path0_server]: the path made of [Path(save_folder_server).parts[:-1]] *)
Definition save_path0_server (local_root server_root save_folder : string)
    : PurePath.t :=
  let p := PurePath.Path fl
             (PurePath.parts (save_folder_server local_root server_root save_folder)) in
  PurePath.Path fl (removelast (PurePath.parts p)).

(** [Path(save_folder).parts[-1]] *)
Definition save_folder_name (save_folder : string) : M string :=
  of_option IndexError (last (PurePath.parts (PurePath.Path fl [save_folder]))).

(** *** The remote server and the local disk *)

(** [ssh.exec_command(cmd)]; the value is what the command writes on its
    standard output. *)
Definition exec_command (cmd : string) : M string :=
  perform (ExecCommand cmd) ;;
  ret (exec_stdout w cmd).

(** [ftp_client.stat(path)]: a path the server does not have is reported
    as an [IOError] with [ENOENT]. *)
Definition sftp_stat (path : string) : M unit :=
  perform (SftpStat path) ;;
  fun st =>
    if bool_decide (path ∈ remote_dirs st) then (st, Ret tt)
    else (st, Raise (OSError (Some ENOENT) "No such file")).

(** [ftp_client.mkdir(path)]: the server refuses to create a directory
    that exists. *)
Definition sftp_mkdir (path : string) : M unit :=
  perform (SftpMkdir path) ;;
  fun st =>
    if bool_decide (path ∈ remote_dirs st) then (st, Raise (OSError None "Failure"))
    else (mkState (trace st) ({[ path ]} ∪ remote_dirs st) (ops_files st), Ret tt).

(** [ftp_client.put(localpath, remotepath)] *)
Definition sftp_put (localpath : pathlike) (remotepath : string) : M unit :=
  perform (SftpPut localpath remotepath).

(** [np.load(path, allow_pickle=True).item()] *)
Definition np_load (path : string) : M (gmap string value) :=
  perform (NpLoad path) ;;
  fun st =>
    match ops_files st !! path with
    | Some op => (st, Ret op)
    | None => (st, Raise (OSError (Some ENOENT) "No such file or directory"))
    end.

(** [np.save(path, op)] *)
Definition np_save (path : string) (op : gmap string value) : M unit :=
  perform (NpSave path op) ;;
  fun st => (mkState (trace st) (remote_dirs st) (<[path := op]> (ops_files st)), Ret tt).

(** [os.path.getsize(path)] *)
Definition os_path_getsize (path : string) : M Z :=
  perform (Getsize path) ;;
  of_option (OSError (Some ENOENT) "No such file or directory") (getsize w path).

(** [Path(v)] for a value of the dictionary *)
Definition Path_of_value (v : value) : M PurePath.t :=
  match v with
  | VStr s => ret (PurePath.Path fl [s])
  | _ => raise TypeError
  end.

(** [f.readlines()] on the text [s]: the lines, each with its newline. *)
Fixpoint readlines (s : string) : list string :=
  match s with
  | EmptyString => []
  | String c s' =>
      if Ascii.eqb c "010" then String c "" :: readlines s'
      else match readlines s' with
           | [] => [String c ""]
           | l :: ls => String c l :: ls
           end
  end.

Definition nl : string := String "010" "".
Definition dq : string := String (ascii_of_nat 34) "".

(** What [send_jobs] writes to [~/.suite2p/run_script.sh]. *)
Definition run_script (conda_env_name : string) : string :=
  "#!/bin/bash" +:+ nl +:+
  "eval $(conda shell.bash hook)" +:+ nl +:+
  "conda init bash" +:+ nl +:+
  "source activate " +:+ conda_env_name +:+ nl +:+
  "echo " +:+ dq +:+ "Running suite2p on server" +:+ dq +:+ nl +:+
  "python -m suite2p --single_plane --ops " +:+ dq +:+ "$@" +:+ dq.

(** [bin_size]: [os.path.getsize(...) / 1e6], in MB *)
Definition bin_size (size : Z) : Q :=
  PyFloat.truediv (fround w) (PyFloat.of_num (fround w) (PyInt size)) 1000000.

(** [int(mem_request_multiplier * bin_size)] *)
Definition mem_request (mem_request_multiplier : pynum) (size : Z) : Z :=
  PyFloat.to_int
    (PyFloat.mul (fround w) (PyFloat.of_num (fround w) mem_request_multiplier)
       (bin_size size)).

(** The [bsub] command of a plane. *)
Definition run_command (n_cores ipl mem : Z) (lsfargs remote_home ops_path : string)
    : string :=
  "bsub -n " +:+ PyStr.fmt_d n_cores +:+ " -J test_s2p" +:+ PyStr.fmt_d ipl +:+ " " +:+
  "-o out" +:+ PyStr.fmt_d ipl +:+ ".txt -e error" +:+ PyStr.fmt_d ipl +:+ ".log " +:+
  "-M " +:+ PyStr.fmt_d mem +:+ " " +:+ lsfargs +:+ " " +:+
  dq +:+ remote_home +:+ "/run_script.sh '" +:+ ops_path +:+ "' > log" +:+
  PyStr.fmt_d ipl +:+ ".txt" +:+ dq.

(** *** [send_jobs]: the body of the loop over the planes (lines 92 to 151) *)

(** [ipl]: [int(Path(pdir).parts[-1][5:])] *)
Definition plane_ipl (pdir : string) : M Z :=
  name <- of_option IndexError (last (PurePath.parts (PurePath.Path fl [pdir]))) ;;
  of_option ValueError (PyStr.int (PyStr.slice_from 5 name)).

(** [save_path]: [save_path0_server / save_folder_name / ("plane%d" % ipl)] *)
Definition save_path (save_path0_server : PurePath.t) (save_folder_name : string)
    (ipl : Z) : PurePath.t :=
  PurePath.div_str fl (PurePath.div_str fl save_path0_server save_folder_name)
    ("plane" +:+ PyStr.fmt_d ipl).

(** Lines 108 to 114: is the directory of the plane on the server? The
    value is the flag [copy]. *)
Definition probe_remote (op_save_path : string) : M bool :=
  let copy := false in
  try_except
    (sftp_stat op_save_path ;; ret copy)
    (fun e =>
       if is_IOError e then
         Some (print "copying files" ;;
               sftp_mkdir op_save_path ;;
               let copy := true in
               ret copy)
       else None).

(** Lines 115 to 132: the paths of the binary files in [op], and their
    transfer when [copy] is set. The value is [op] after the assignments. *)
Definition transfer_binaries (copy : bool) (save_path fast_disk_orig : PurePath.t)
    (op : gmap string value) : M (gmap string value) :=
  let op_reg_file := unix_path fl (PurePath.div_str fl save_path "data.bin") in
  let op := <["reg_file" := VStr op_reg_file]> op in
  if has_key op "raw_file" then
    let op_raw_file := unix_path fl (PurePath.div_str fl save_path "data_raw.bin") in
    let op := <["raw_file" := VStr op_raw_file]> op in
    (when copy then
       sftp_put (PPath (PurePath.div_str fl fast_disk_orig "data_raw.bin")) op_raw_file) ;;
    if has_key op "raw_file_chan2" then
      let op_raw_file_chan2 :=
        unix_path fl (PurePath.div_str fl save_path "data_chan2_raw.bin") in
      let op := <["raw_file_chan2" := VStr op_raw_file_chan2]> op in
      (when copy then
         sftp_put (PPath (PurePath.div_str fl fast_disk_orig "data_raw_chan2.bin"))
           op_raw_file_chan2) ;;
      ret op
    else ret op
  else
    (when copy then
       sftp_put (PPath (PurePath.div_str fl fast_disk_orig "data.bin")) op_reg_file) ;;
    if has_key op "reg_file_chan2" then
      let op_reg_file_chan2 :=
        unix_path fl (PurePath.div_str fl save_path "data_chan2.bin") in
      let op := <["reg_file_chan2" := VStr op_reg_file_chan2]> op in
      (when copy then
         sftp_put (PPath (PurePath.div_str fl fast_disk_orig "data_chan2.bin"))
           op_reg_file_chan2) ;;
      ret op
    else ret op.

(** Lines 134 to 138: save final version of ops and send to server. *)
Definition save_ops (copy : bool) (ops_path_orig : string) (op : gmap string value)
    (op_ops_path : string) : M unit :=
  np_save ops_path_orig op ;;
  when copy then
    print "copying ops" ;;
    sftp_put (PStr ops_path_orig) op_ops_path.

(** The file whose size line 141 asks for: [Path(op['fast_disk']) /
    'data_raw.bin'], [op['fast_disk']] being what line 103 has stored. *)
Definition sized_file (op_fast_disk : string) : PurePath.t :=
  PurePath.div_str fl (PurePath.Path fl [op_fast_disk]) "data_raw.bin".

(** Lines 140 to 151: check size of binary file, run plane. *)
Definition submit_plane (n_cores : Z) (mem_request_multiplier : pynum)
    (lsfargs : string) (ipl : Z) (op_fast_disk op_ops_path : string) : M unit :=
  size <- os_path_getsize (PurePath.str fl (sized_file op_fast_disk)) ;;
  let bin_size := bin_size size in
  log (PrintBinarySize (PyFloat.truediv (fround w) bin_size 1000)) ;;
  out <- exec_command "echo $HOME" ;;
  let remote_home := PyStr.strip out in
  let run_command :=
    run_command n_cores ipl (mem_request mem_request_multiplier size) lsfargs
      remote_home op_ops_path in
  stdout <- exec_command run_command ;;
  line <- of_option IndexError (head (readlines stdout)) ;;
  print line.

Definition send_plane (save_path0_server : PurePath.t) (save_folder_name : string)
    (n_cores : Z) (mem_request_multiplier : pynum) (lsfargs : string)
    (pdir : string) : M unit :=
  ipl <- plane_ipl pdir ;;
  print (">>>>>>>>>> PLANE " +:+ PyStr.fmt_d ipl +:+ " <<<<<<<<<") ;;
  let ops_path_orig := pdir +:+ "ops.npy" in
  op <- np_load ops_path_orig ;;
  fast_disk <- getitem op "fast_disk" ;;
  fast_disk_orig <- Path_of_value fast_disk ;;
  (* change paths *)
  let op := <["save_path0" := VStr (unix_path fl save_path0_server)]> op in
  let op := <["save_folder" := VStr save_folder_name]> op in
  let save_path := save_path save_path0_server save_folder_name ipl in
  let op_save_path := unix_path fl save_path in
  let op := <["save_path" := VStr op_save_path]> op in
  let op_fast_disk := unix_path fl save_path in
  let op := <["fast_disk" := VStr op_fast_disk]> op in
  let op_ops_path := unix_path fl (PurePath.div_str fl save_path "ops.npy") in
  let op := <["ops_path" := VStr op_ops_path]> op in
  print op_ops_path ;;
  (* move binary files to server if needed *)
  copy <- probe_remote op_save_path ;;
  op <- transfer_binaries copy save_path fast_disk_orig op ;;
  save_ops copy ops_path_orig op op_ops_path ;;
  submit_plane n_cores mem_request_multiplier lsfargs ipl op_fast_disk op_ops_path.

(** [for x in l: body(x)] *)
Fixpoint for_each {A} (l : list A) (body : A -> M unit) : M unit :=
  match l with
  | [] => ret tt
  | x :: l' => body x ;; for_each l' body
  end.

(** [natsorted(glob.glob(save_folder + "/*/"))] *)
Definition pdirs (save_folder : string) : list string :=
  Natsort.natsorted (glob_glob w (save_folder +:+ "/*/")).

(** *** [send_jobs] *)

Definition send_jobs (fuel : nat) (save_folder : string)
    (host username password server_root local_root : option string)
    (n_cores : Z) (conda_env_name : string) (mem_request_multiplier : pynum)
    (lsfargs : string) : M unit :=
  (if HAS_PARAMIKO w then ret tt
   else raise (ImportError "paramiko required, please 'pip install paramiko'")) ;;
  host <- of_option (Exception "No server specified, please edit suite2p/io/server.py")
            host ;;
  local_root <- of_option TypeError local_root ;;
  server_root <- of_option TypeError server_root ;;
  let save_path0_server := save_path0_server local_root server_root save_folder in
  save_folder_name <- save_folder_name save_folder ;;
  print ("save path on server:  " +:+ unix_path fl save_path0_server) ;;
  ssh_connect fuel host (default "" username) (default "" password) true ;;
  (* create bash file in home directory to run *)
  let run_script_dir := PurePath.div_str fl (PurePath.Path fl [path_home w]) ".suite2p" in
  let run_script_path := PurePath.div_str fl run_script_dir "run_script.sh" in
  perform (Makedirs (PurePath.str fl run_script_dir)) ;;
  perform (WriteFile (PurePath.str fl run_script_path) (run_script conda_env_name)) ;;
  exec_command "chmod 777 ~/" ;;
  perform OpenSftp ;;
  sftp_put (PPath run_script_path) "run_script.sh" ;;
  exec_command "chmod 777 run_script.sh" ;;
  for_each (pdirs save_folder)
    (send_plane save_path0_server save_folder_name n_cores mem_request_multiplier
       lsfargs) ;;
  perform SftpClose ;;
  print "Command done, closing SSH connection" ;;
  perform SshClose.

End Server.

(** * The vocabulary of the properties *)

(** ** Traces *)

(** The state after some more events. *)
Definition add_events (evs : list event) (st : state) : state :=
  mkState (trace st ++ evs) (remote_dirs st) (ops_files st).

Definition is_Connect (e : event) : bool :=
  match e with Connect _ _ _ => true | _ => false end.

Definition is_Sleep (e : event) : bool :=
  match e with Sleep _ => true | _ => false end.

(** The connection attempts and the pauses among some events. *)
Definition attempts (evs : list event) : nat := length (List.filter is_Connect evs).
Definition sleeps (evs : list event) : nat := length (List.filter is_Sleep evs).

(** ** [ssh_connect] *)

(** The events of a turn of the loop up to the attempt itself. *)
Definition attempt_events (host username password : string) (verbose : bool)
    (i : nat) : list event :=
  (if verbose then
     [Print ("Trying to connect to " +:+ host +:+ " (attempt " +:+
             PyStr.fmt_d (Z.of_nat i + 1) +:+ "/30)")]
   else []) ++ [Connect host username password].

(** The events of a turn of the loop whose attempt fails for a reason other
    than authentication. *)
Definition transient_events (host username password : string) (verbose : bool)
    (i : nat) : list event :=
  attempt_events host username password verbose i ++
  [Print ("Could not SSH to " +:+ host +:+ ", waiting for it to start"); Sleep 2].

(** The events of [n] such turns in a row, from the counter at [i]. *)
Fixpoint transient_run (host username password : string) (verbose : bool)
    (i n : nat) : list event :=
  match n with
  | O => []
  | S n' =>
      transient_events host username password verbose i ++
      transient_run host username password verbose (S i) n'
  end.

(** Attempt number [i] (from 0) fails, and not for authentication. *)
Definition transient (w : world) (i : nat) : Prop :=
  exists e, connect_outcome w i = Some e /\ is_AuthenticationException e = false.

(** Attempt number [i] (from 0) is refused for authentication. *)
Definition auth_refused (w : world) (i : nat) : Prop :=
  exists e, connect_outcome w i = Some e /\ is_AuthenticationException e = true.

(** A server that is unreachable for the first [n] attempts and accepts the
    next one. *)
Definition world_up_after (n : nat) : world :=
  mkWorld Posix true "/home/user"
    (fun i => if (i <? n)%nat then Some (SSHException "Unable to connect") else None)
    (fun _ => []) (fun _ => None) (fun _ => "") (fun _ _ => None) (fun q => q).

(** A server that refuses the credentials at attempt number [k] (from 0)
    and is unreachable before. *)
Definition world_auth_refused_at (k : nat) : world :=
  mkWorld Posix true "/home/user"
    (fun i => if (i <? k)%nat then Some (SSHException "Unable to connect")
              else Some (AuthenticationException "Authentication failed."))
    (fun _ => []) (fun _ => None) (fun _ => "") (fun _ _ => None) (fun q => q).

Definition empty_state : state := mkState [] ∅ ∅.

(** ** Runs

    [emits m st Ev Post]: from [st], the events [m] adds to the trace all
    satisfy [Ev], and if [m] returns a value, value and final state satisfy
    [Post]. It holds of every outcome, exceptions included. *)
Definition emits {A} (m : M A) (st : state) (Ev : event -> Prop)
    (Post : A -> state -> Prop) : Prop :=
  exists evs,
    trace (m st).1 = trace st ++ evs /\ Forall Ev evs /\
    forall a, (m st).2 = Ret a -> Post a (m st).1.

(** The local file names of the binary files. *)
Definition raw_names : list string := ["data_raw.bin"; "data_raw_chan2.bin"].
Definition registered_names : list string := ["data.bin"; "data_chan2.bin"].

(** A transfer of a file whose local name is one of [l]. *)
Definition is_transfer_of (l : list string) (e : event) : bool :=
  match e with
  | SftpPut (PPath p) _ =>
      match last (PurePath.names p) with
      | Some x => bool_decide (x ∈ l)
      | None => false
      end
  | _ => false
  end.

Definition is_raw_transfer : event -> bool := is_transfer_of raw_names.
Definition is_registered_transfer : event -> bool := is_transfer_of registered_names.

(** Any file transfer. *)
Definition is_transfer (e : event) : bool :=
  match e with SftpPut _ _ => true | _ => false end.

Definition is_NpSave (e : event) : bool :=
  match e with NpSave _ _ => true | _ => false end.

(** The server and the local files are as they were. *)
Definition same_store (st st' : state) : Prop :=
  remote_dirs st' = remote_dirs st /\ ops_files st' = ops_files st.

(** [m] from [st] adds the events [evs] and ends in [st'] with the
    outcome [r]. *)
Definition runs {A} (m : M A) (st : state) (evs : list event) (r : result A)
    (st' : state) : Prop :=
  m st = (st', r) /\ trace st' = trace st ++ evs.

(** The state after the directory [path] has been made on the server. *)
Definition add_dir (path : string) (st : state) : state :=
  mkState (trace st) ({[ path ]} ∪ remote_dirs st) (ops_files st).

(** ** A small laboratory: two planes, one with raw data *)

Definition lab_op_raw : gmap string value :=
  <["fast_disk" := VStr "/fast/s2p/plane0"]>
    (<["raw_file" := VStr "/fast/s2p/plane0/data_raw.bin"]> ∅).

Definition lab_op_reg : gmap string value :=
  <["fast_disk" := VStr "/fast/s2p/plane1"]>
    (<["reg_file" := VStr "/fast/s2p/plane1/data.bin"]> ∅).

(** The local disk holds the binary files under [/fast] and, as a mount of
    the server, under [/srv/lab]. *)
Definition lab_getsize (path : string) : option Z :=
  if bool_decide (path = "/fast/s2p/plane0/data_raw.bin") then Some 5000000
  else if bool_decide (path = "/srv/lab/s2p/plane0/data_raw.bin") then Some 5000000
  else if bool_decide (path = "/fast/s2p/plane1/data.bin") then Some 3500000
  else if bool_decide (path = "/srv/lab/s2p/plane1/data.bin") then Some 3500000
  else None.

Definition lab_stdout (cmd : string) : string :=
  if bool_decide (cmd = "echo $HOME") then "/home/remote" +:+ nl
  else "Job <1> is submitted to default queue." +:+ nl.

Definition lab_world (fault : list event -> event -> option pyexn) : world :=
  mkWorld Posix true "/home/user" (fun _ => None)
    (fun _ => ["/data/s2p/plane1/"; "/data/s2p/plane0/"])
    lab_getsize lab_stdout fault (fun q => q).

Definition no_fault : list event -> event -> option pyexn := fun _ _ => None.

(** The server refuses [stat] on the directory of plane 0 for want of
    permission. *)
Definition stat_denied : list event -> event -> option pyexn :=
  fun _ e =>
    match e with
    | SftpStat path =>
        if bool_decide (path = "/srv/lab/s2p/plane0")
        then Some (OSError (Some EACCES) "Permission denied") else None
    | _ => None
    end.

Definition lab_state (dirs : gset string) : state :=
  mkState [] dirs
    (<["/data/s2p/plane0/ops.npy" := lab_op_raw]>
       (<["/data/s2p/plane1/ops.npy" := lab_op_reg]> ∅)).

Definition lab_send_plane (w : world) (pdir : string) : M unit :=
  send_plane w (save_path0_server w "/data" "/srv/lab" "/data/s2p") "s2p" 8
    (PyInt 2) "" pdir.

(** ** Forward-slash rendering *)

(** The string [x] has no separator of the host in it. *)
Definition sep_free (fl : flavour) (x : string) : Prop :=
  PyStr.contains (PurePath.sep fl) x = false.

(** The names of [p] are names: none has a separator in it. *)
Definition wf_names (fl : flavour) (p : PurePath.t) : Prop :=
  Forall (sep_free fl) (PurePath.names p).

(** [p] written the remote way: ["/"] between the names, and in the anchor
    in place of the separator of the host. *)
Definition forward_slash_form (fl : flavour) (p : PurePath.t) : string :=
  let s := PyStr.replace (PurePath.sep fl) "/" (PurePath.anchor p) +:+
           PyStr.join "/" (PurePath.names p) in
  if bool_decide (s = "") then "." else s.

(** [s] is a path rendered with forward slashes: it is the remote way of
    writing some path, and the separator of the host, unless it is ["/"]
    itself, does not occur in it. *)
Definition forward_slashed (fl : flavour) (s : string) : Prop :=
  (exists p, wf_names fl p /\ s = forward_slash_form fl p) /\
  (PurePath.sep fl <> "/"%char -> PyStr.contains (PurePath.sep fl) s = false).

Definition key_forward_slashed (fl : flavour) (op : gmap string value) (k : string)
    : Prop :=
  exists s, op !! k = Some (VStr s) /\ forward_slashed fl s.

(** The path-valued keys the dispatcher rewrites in a descriptor are all
    rendered with forward slashes: the five it always sets, and the keys of
    the raw files or of the second registered file when it sets them. *)
Definition paths_rewritten (fl : flavour) (op : gmap string value) : Prop :=
  Forall (key_forward_slashed fl op)
    ["save_path0"; "save_path"; "fast_disk"; "ops_path"; "reg_file"] /\
  (has_key op "raw_file" = true ->
   key_forward_slashed fl op "raw_file" /\
   (has_key op "raw_file_chan2" = true -> key_forward_slashed fl op "raw_file_chan2")) /\
  (has_key op "raw_file" = false -> has_key op "reg_file_chan2" = true ->
   key_forward_slashed fl op "reg_file_chan2").

(** ** The descriptor a plane saves *)

(** Lines 115 to 129 without the transfers: the assignments to [op]. *)
Definition with_binary_paths (fl : flavour) (sp : PurePath.t)
    (op : gmap string value) : gmap string value :=
  let op := <["reg_file" := VStr (unix_path fl (PurePath.div_str fl sp "data.bin"))]> op in
  if has_key op "raw_file" then
    let op :=
      <["raw_file" := VStr (unix_path fl (PurePath.div_str fl sp "data_raw.bin"))]> op in
    if has_key op "raw_file_chan2" then
      <["raw_file_chan2" :=
          VStr (unix_path fl (PurePath.div_str fl sp "data_chan2_raw.bin"))]> op
    else op
  else
    if has_key op "reg_file_chan2" then
      <["reg_file_chan2" :=
          VStr (unix_path fl (PurePath.div_str fl sp "data_chan2.bin"))]> op
    else op.

(** Lines 99 to 129 without the effects: what becomes of the descriptor
    [op] of plane [ipl]. *)
Definition rewritten_descriptor (w : world) (sp0 : PurePath.t) (sfn : string)
    (ipl : Z) (op : gmap string value) : gmap string value :=
  let fl := os_flavour w in
  let sp := save_path w sp0 sfn ipl in
  with_binary_paths fl sp
    (<["ops_path" := VStr (unix_path fl (PurePath.div_str fl sp "ops.npy"))]>
       (<["fast_disk" := VStr (unix_path fl sp)]>
          (<["save_path" := VStr (unix_path fl sp)]>
             (<["save_folder" := VStr sfn]>
                (<["save_path0" := VStr (unix_path fl sp0)]> op))))).

(** The keys [send_jobs] may assign in a descriptor. *)
Definition assigned_keys : list string :=
  ["save_path0"; "save_folder"; "save_path"; "fast_disk"; "ops_path"; "reg_file";
   "raw_file"; "raw_file_chan2"; "reg_file_chan2"].

(** ** The memory request *)

(** A multiplier that is not negative. *)
Definition nonneg_num (n : pynum) : Prop :=
  match n with
  | PyInt z => 0 <= z
  | PyFloat q => (0 <= q)%Q
  end.

(** A rounding to floats that keeps the order and is exact at 0, as the
    rounding to the nearest [float] is. *)
Definition monotone_rounding (rnd : Q -> Q) : Prop :=
  (forall x y : Q, (x <= y)%Q -> (rnd x <= rnd y)%Q) /\ (rnd 0 == 0)%Q.

(** ** Names of files *)

(** [x] starts like a Windows drive: a letter and a colon. *)
Definition drive_like (x : string) : bool :=
  match x with
  | String c x' =>
      match x' with
      | String d _ => Ascii.eqb d ":" && PyStr.is_letter c
      | EmptyString => false
      end
  | EmptyString => false
  end.

(** On a Windows host a name that starts like a drive is read as a drive
    when it is parsed on its own; the other names, and all names on a POSIX
    host, are plain. *)
Definition plain_name (fl : flavour) (x : string) : Prop :=
  match fl with Posix => True | Windows => drive_like x = false end.

(** What a name of a parsed path is: not empty, not ["."], without a
    separator of the flavour. *)
Definition is_name (fl : flavour) (x : string) : Prop :=
  x <> "" /\ x <> "." /\ PyStr.contains (PurePath.sep fl) x = false /\
  match PurePath.altsep fl with
  | Some a => PyStr.contains a x = false
  | None => True
  end.

(** * Properties *)

(** ** Traces *)

Lemma add_events_add_events (a b : list event) (st : state) :
  add_events a (add_events b st) = add_events (b ++ a) st.
Proof. unfold add_events; simpl. by rewrite app_assoc. Qed.

Lemma add_events_nil (st : state) : add_events [] st = st.
Proof. destruct st; unfold add_events; simpl. by rewrite app_nil_r. Qed.

Lemma attempts_app (a b : list event) : attempts (a ++ b) = (attempts a + attempts b)%nat.
Proof. unfold attempts. by rewrite List.filter_app, length_app. Qed.

Lemma sleeps_app (a b : list event) : sleeps (a ++ b) = (sleeps a + sleeps b)%nat.
Proof. unfold sleeps. by rewrite List.filter_app, length_app. Qed.

(** ** [ssh_connect] *)

Section Connect.

Context (w : world) (host username password : string) (verbose : bool).

Local Abbreviation attempt_events' := (attempt_events host username password verbose).
Local Abbreviation transient_events' := (transient_events host username password verbose).
Local Abbreviation transient_run' := (transient_run host username password verbose).
Local Abbreviation loop := (ssh_connect_loop w).

Lemma attempts_attempt_events i : attempts (attempt_events' i) = 1%nat.
Proof. unfold attempt_events. by destruct verbose. Qed.

Lemma sleeps_attempt_events i : sleeps (attempt_events' i) = 0%nat.
Proof. unfold attempt_events. by destruct verbose. Qed.

Lemma attempts_transient_events i : attempts (transient_events' i) = 1%nat.
Proof.
  unfold transient_events. rewrite attempts_app, attempts_attempt_events. reflexivity.
Qed.

Lemma sleeps_transient_events i : sleeps (transient_events' i) = 1%nat.
Proof.
  unfold transient_events. rewrite sleeps_app, sleeps_attempt_events. reflexivity.
Qed.

Lemma attempts_transient_run i n : attempts (transient_run' i n) = n.
Proof.
  revert i; induction n as [|n IH]; intros i; simpl; [reflexivity|].
  rewrite attempts_app, attempts_transient_events, IH. reflexivity.
Qed.

Lemma sleeps_transient_run i n : sleeps (transient_run' i n) = n.
Proof.
  revert i; induction n as [|n IH]; intros i; simpl; [reflexivity|].
  rewrite sleeps_app, sleeps_transient_events, IH. reflexivity.
Qed.

(** A turn whose attempt succeeds leaves the loop. *)
Lemma body_connected i st :
  connect_outcome w i = None ->
  ssh_connect_body w host username password verbose i st =
    (add_events (attempt_events' i ++
                 if verbose then [Print ("Connected to " +:+ host)] else []) st,
     Ret (inl tt)).
Proof.
  intros Hc. unfold ssh_connect_body, attempt_events, bind, try_except,
    ssh_client_connect, bind, print, log, ret, add_events.
  destruct verbose; cbn [fst snd trace remote_dirs ops_files]; rewrite Hc;
    cbn [fst snd trace remote_dirs ops_files app];
    rewrite <- ?app_assoc; reflexivity.
Qed.

(** A turn whose attempt is refused for authentication exits at once. *)
Lemma body_auth_failed i st :
  auth_refused w i ->
  ssh_connect_body w host username password verbose i st =
    (add_events (attempt_events' i ++
                 [Print ("Authentication failed when connecting to " +:+ host)]) st,
     Raise (SystemExit 1)).
Proof.
  intros (e & Hc & He). unfold ssh_connect_body, attempt_events, bind, try_except,
    ssh_client_connect, bind, print, sys_exit, raise, log, ret, add_events.
  destruct verbose; cbn [fst snd trace remote_dirs ops_files]; rewrite Hc;
    cbn [fst snd trace remote_dirs ops_files app]; rewrite He;
    cbn [fst snd trace remote_dirs ops_files app];
    rewrite <- ?app_assoc; reflexivity.
Qed.

(** A turn whose attempt fails otherwise pauses and counts; at 30 it gives
    up. *)
Lemma body_transient i st :
  transient w i ->
  ssh_connect_body w host username password verbose i st =
    if bool_decide (S i = 30%nat) then
      (add_events (transient_events' i ++
                   [Print ("Could not connect to " +:+ host +:+ ". Giving up")]) st,
       Raise (SystemExit 1))
    else (add_events (transient_events' i) st, Ret (inr (S i))).
Proof.
  intros (e & Hc & He). unfold ssh_connect_body, transient_events, attempt_events,
    bind, try_except, ssh_client_connect, bind, print, sys_exit, raise, log, ret,
    add_events.
  destruct verbose; cbn [fst snd trace remote_dirs ops_files]; rewrite Hc;
    cbn [fst snd trace remote_dirs ops_files app]; rewrite He;
    cbn [fst snd trace remote_dirs ops_files app];
    destruct (bool_decide (S i = 30%nat));
    cbn [fst snd trace remote_dirs ops_files app];
    rewrite <- ?app_assoc; reflexivity.
Qed.

Lemma loop_unfold fuel i st :
  loop (S fuel) host username password verbose i st =
    match ssh_connect_body w host username password verbose i st with
    | (st', Ret (inl _)) => (st', Ret tt)
    | (st', Ret (inr i')) => loop fuel host username password verbose i' st'
    | (st', Raise e) => (st', Raise e)
    | (st', Diverge) => (st', Diverge)
    end.
Proof.
  cbn [ssh_connect_loop]. unfold bind.
  destruct (ssh_connect_body w host username password verbose i st) as [st' [[[]|i']|e|]];
    reflexivity.
Qed.

(** [n] transient failures in a row that stay below the bound: the loop
    goes on from the counter at [i + n]. *)
Lemma loop_transient_run n : forall i fuel st,
  (forall j, (i <= j < i + n)%nat -> transient w j) ->
  (i + n < 30)%nat ->
  loop (n + fuel) host username password verbose i st =
    loop fuel host username password verbose (i + n) (add_events (transient_run' i n) st).
Proof.
  induction n as [|n IH]; intros i fuel st Htr Hlt.
  - simpl. rewrite Nat.add_0_r, add_events_nil. reflexivity.
  - change (S n + fuel)%nat with (S (n + fuel)).
    rewrite loop_unfold, body_transient by (apply Htr; lia).
    rewrite bool_decide_false by lia.
    rewrite IH by (try (intros j Hj; apply Htr); lia).
    rewrite add_events_add_events. simpl transient_run.
    replace (S i + n)%nat with (i + S n)%nat by lia. reflexivity.
Qed.

(** With fuel for 30 turns the loop always ends, whatever the server does,
    after at most [30 - i] attempts; it returns only if an attempt was
    accepted. *)
Lemma loop_at_most n : forall i fuel st,
  (i + n = 30)%nat -> (0 < n)%nat -> (n <= fuel)%nat ->
  exists evs r,
    loop fuel host username password verbose i st = (add_events evs st, r) /\
    r <> Diverge /\ (attempts evs <= n)%nat /\
    (r = Ret tt -> exists k, (k < 30)%nat /\ connect_outcome w k = None).
Proof.
  induction n as [|n IH]; intros i fuel st Hi Hn Hf; [lia|].
  destruct fuel as [|fuel]; [lia|]. rewrite loop_unfold.
  destruct (connect_outcome w i) as [e|] eqn:Hc.
  - destruct (is_AuthenticationException e) eqn:He.
    + rewrite body_auth_failed by (exists e; done).
      eexists _, _; split; [reflexivity|]. split; [done|].
      rewrite attempts_app, attempts_attempt_events. split; [unfold attempts; simpl; lia|done].
    + rewrite body_transient by (exists e; done).
      case_bool_decide as H30.
      * eexists _, _; split; [reflexivity|]. split; [done|].
        rewrite attempts_app, attempts_transient_events. split; [unfold attempts; simpl; lia|done].
      * destruct (IH (S i) fuel (add_events (transient_events' i) st))
          as (evs & r & Heq & Hr & Ha & Hret); [lia..|].
        rewrite Heq, add_events_add_events.
        eexists _, _; split; [reflexivity|]. split; [done|].
        rewrite attempts_app, attempts_transient_events. split; [lia|done].
  - rewrite body_connected by done.
    eexists _, _; split; [reflexivity|]. split; [done|].
    rewrite attempts_app, attempts_attempt_events.
    split; [destruct verbose; unfold attempts; simpl; lia|]. intros _. exists i. split; [lia|done].
Qed.

(** X4. [ssh_connect] ends after at most 30 attempts in every environment:
    whatever the server answers to each attempt, the loop does not go on for
    ever, it makes no more than 30 attempts, and it returns a client only if
    one of the first 30 attempts was accepted. *)
Lemma ssh_connect_at_most_30 fuel st :
  (30 <= fuel)%nat ->
  exists evs r,
    ssh_connect w fuel host username password verbose st = (add_events evs st, r) /\
    r <> Diverge /\ (attempts evs <= 30)%nat /\
    (r = Ret tt -> exists k, (k < 30)%nat /\ connect_outcome w k = None).
Proof. intros Hf. apply loop_at_most; lia. Qed.

(** C3. The connect operation gives up at the 30th failure: when each of the
    first 30 attempts fails for a reason other than authentication,
    [ssh_connect] ends with [sys.exit(1)] after exactly 30 attempts (and 30
    pauses), whatever the server would have answered to a 31st attempt. *)
Theorem ssh_connect_gives_up_after_30 fuel st :
  (30 <= fuel)%nat ->
  (forall k, (k < 30)%nat -> transient w k) ->
  exists evs,
    ssh_connect w fuel host username password verbose st =
      (add_events evs st, Raise (SystemExit 1)) /\
    attempts evs = 30%nat /\ sleeps evs = 30%nat.
Proof.
  intros Hf Htr. unfold ssh_connect.
  replace fuel with (29 + S (fuel - 30))%nat by lia.
  rewrite loop_transient_run by (try (intros j Hj; apply Htr); lia).
  rewrite loop_unfold, body_transient by (apply Htr; lia).
  rewrite bool_decide_true by lia. rewrite add_events_add_events.
  eexists; split; [reflexivity|].
  rewrite !attempts_app, !sleeps_app, attempts_transient_run, sleeps_transient_run,
    attempts_transient_events, sleeps_transient_events. split; reflexivity.
Qed.

(** C4. An authentication failure is fatal at once: when attempt number
    [k + 1] is refused for authentication (the attempts before it having
    failed otherwise), [ssh_connect] ends with [sys.exit(1)] right after that
    attempt: the only event after it is the message, there were [k + 1]
    attempts and [k] pauses. For [k = 0] the count of attempts stays at 1 and
    there is no pause. *)
Theorem ssh_connect_auth_failure_is_fatal k fuel st :
  (k < 30)%nat -> (k < fuel)%nat ->
  (forall j, (j < k)%nat -> transient w j) ->
  auth_refused w k ->
  let evs :=
    transient_run' 0 k ++ attempt_events' k ++
    [Print ("Authentication failed when connecting to " +:+ host)] in
  ssh_connect w fuel host username password verbose st =
    (add_events evs st, Raise (SystemExit 1)) /\
  attempts evs = S k /\ sleeps evs = k.
Proof.
  intros Hk Hf Htr Hauth evs. split.
  - unfold ssh_connect. replace fuel with (k + S (fuel - S k))%nat by lia.
    rewrite loop_transient_run by (try (intros j Hj; apply Htr); lia).
    rewrite loop_unfold. simpl (0 + k)%nat. rewrite body_auth_failed by done.
    rewrite add_events_add_events. reflexivity.
  - unfold evs.
    rewrite !attempts_app, !sleeps_app, attempts_transient_run, sleeps_transient_run,
      attempts_attempt_events, sleeps_attempt_events.
    unfold attempts, sleeps. simpl. split; lia.
Qed.

End Connect.

(** The server of the claim: 30 failures, then it would accept. *)
Lemma ssh_connect_gives_up_after_30_witness :
  connect_outcome (world_up_after 30) 30 = None /\
  exists evs,
    ssh_connect (world_up_after 30) 30 "host" "user" "pw" true empty_state =
      (add_events evs empty_state, Raise (SystemExit 1)) /\
    attempts evs = 30%nat /\ sleeps evs = 30%nat.
Proof.
  split; [reflexivity|].
  apply (ssh_connect_gives_up_after_30 (world_up_after 30) "host" "user" "pw" true 30
           empty_state).
  - lia.
  - intros k Hk. exists (SSHException "Unable to connect"). split; [|reflexivity].
    simpl. destruct (Nat.ltb_spec k 30); [reflexivity|lia].
Defined.

(** Credentials refused at the first attempt: one attempt, no pause. *)
Lemma ssh_connect_auth_failure_is_fatal_witness :
  let evs :=
    [Print "Trying to connect to host (attempt 1/30)"; Connect "host" "user" "pw";
     Print "Authentication failed when connecting to host"] in
  ssh_connect (world_auth_refused_at 0) 1 "host" "user" "pw" true empty_state =
    (add_events evs empty_state, Raise (SystemExit 1)) /\
  attempts evs = 1%nat /\ sleeps evs = 0%nat.
Proof.
  apply (ssh_connect_auth_failure_is_fatal (world_auth_refused_at 0) "host" "user" "pw"
           true 0 1 empty_state).
  - lia.
  - lia.
  - intros j Hj. lia.
  - exists (AuthenticationException "Authentication failed."). split; reflexivity.
Defined.

(** ** Runs *)

Section Emits.

Context {A B : Type} (Ev : event -> Prop).

Lemma emits_ret (a : A) st : emits (ret a) st Ev (fun a' st' => a' = a /\ st' = st).
Proof.
  exists []. simpl. rewrite app_nil_r. split; [done|]. split; [constructor|].
  intros a' [= <-]. done.
Qed.

Lemma emits_raise (e : pyexn) st (Post : A -> state -> Prop) :
  emits (raise e) st Ev Post.
Proof. exists []. simpl. rewrite app_nil_r. split; [done|]. split; [constructor|done]. Qed.

Lemma emits_of_option (e : pyexn) (o : option A) st :
  emits (of_option e o) st Ev (fun a st' => o = Some a /\ st' = st).
Proof.
  destruct o as [a|]; [|apply emits_raise].
  exists []. simpl. rewrite app_nil_r. split; [done|]. split; [constructor|].
  intros a' [= <-]. done.
Qed.

Lemma emits_log (e : event) st :
  Ev e -> emits (log e) st Ev (fun _ st' => st' = add_events [e] st).
Proof.
  intros He. exists [e]. simpl. split; [done|]. split; [by repeat constructor|done].
Qed.

Lemma emits_perform (w : world) (e : event) st :
  Ev e -> emits (perform w e) st Ev (fun _ st' => st' = add_events [e] st).
Proof.
  intros He. exists [e]. unfold perform.
  destruct (fault w (trace st) e); simpl;
    (split; [done|]; split; [by repeat constructor|done]).
Qed.

(** A step that adds no event. *)
Lemma emits_silent (m : M A) st (Post : A -> state -> Prop) :
  trace (m st).1 = trace st ->
  (forall a, (m st).2 = Ret a -> Post a (m st).1) ->
  emits m st Ev Post.
Proof. intros Ht HP. exists []. rewrite app_nil_r. split; [done|]. split; [constructor|done]. Qed.

Lemma emits_bind (m : M A) (f : A -> M B) st
    (Mid : A -> state -> Prop) (Post : B -> state -> Prop) :
  emits m st Ev Mid ->
  (forall a st', Mid a st' -> emits (f a) st' Ev Post) ->
  emits (bind m f) st Ev Post.
Proof.
  intros (evs & Ht & Hev & Hmid) Hf. unfold emits, bind.
  destruct (m st) as [st1 [a|e|]] eqn:Hm; simpl in *.
  - destruct (Hf a st1 (Hmid a eq_refl)) as (evs' & Ht' & Hev' & Hpost).
    exists (evs ++ evs'). rewrite Ht', Ht, app_assoc. split; [done|].
    split; [by apply Forall_app|done].
  - exists evs. done.
  - exists evs. done.
Qed.

Lemma emits_try_except (body : M A) (handler : pyexn -> option (M A)) st
    (Post : A -> state -> Prop) :
  emits body st Ev Post ->
  (forall e h st', handler e = Some h -> emits h st' Ev Post) ->
  emits (try_except body handler) st Ev Post.
Proof.
  intros (evs & Ht & Hev & Hpost) Hh. unfold emits, try_except.
  destruct (body st) as [st1 [a|e|]] eqn:Hm; simpl in *.
  - exists evs. done.
  - destruct (handler e) as [h|] eqn:He.
    + destruct (Hh e h st1 He) as (evs' & Ht' & Hev' & Hpost').
      exists (evs ++ evs'). rewrite Ht', Ht, app_assoc. split; [done|].
      split; [by apply Forall_app|done].
    + exists evs. done.
  - exists evs. done.
Qed.

Lemma emits_weaken (m : M A) st (Post Post' : A -> state -> Prop) :
  emits m st Ev Post ->
  (forall a st', Post a st' -> Post' a st') ->
  emits m st Ev Post'.
Proof.
  intros (evs & Ht & Hev & Hpost) Hw. exists evs. split; [done|]. split; [done|].
  intros a Ha. apply Hw, Hpost, Ha.
Qed.

End Emits.

Lemma same_store_refl st : same_store st st.
Proof. by split. Qed.

Lemma same_store_trans st1 st2 st3 :
  same_store st1 st2 -> same_store st2 st3 -> same_store st1 st3.
Proof. intros [? ?] [? ?]. split; congruence. Qed.

Lemma same_store_add_events evs st : same_store st (add_events evs st).
Proof. by split. Qed.

#[local] Hint Resolve same_store_refl same_store_add_events : core.

(** ** What each operation adds to the trace *)

Section Operations.

Context (w : world) (Ev : event -> Prop).

Lemma emits_print line st :
  Ev (Print line) -> emits (print line) st Ev (fun _ st' => same_store st st').
Proof.
  intros He. eapply emits_weaken; [by apply emits_log|].
  simpl. intros _ st' ->. auto.
Qed.

Lemma emits_exec_command cmd st :
  Ev (ExecCommand cmd) ->
  emits (exec_command w cmd) st Ev (fun out st' => same_store st st').
Proof.
  intros He. unfold exec_command. eapply emits_bind; [by apply emits_perform|].
  simpl. intros _ st' ->. eapply emits_weaken; [apply emits_ret|].
  simpl. intros a st'' [_ ->]. auto.
Qed.

Lemma emits_sftp_stat path st :
  Ev (SftpStat path) ->
  emits (sftp_stat w path) st Ev
    (fun _ st' => same_store st st' /\ path ∈ remote_dirs st /\
                  fault w (trace st) (SftpStat path) = None).
Proof.
  intros He. exists [SftpStat path]. unfold sftp_stat, bind, perform.
  destruct (fault w (trace st) (SftpStat path)) eqn:Hf; simpl.
  - split; [done|]. split; [by repeat constructor|done].
  - case_bool_decide; simpl; (split; [done|]; split; [by repeat constructor|]);
      intros a Ha; simplify_eq/=. split; [by split|done].
Qed.

Lemma emits_sftp_mkdir path st :
  Ev (SftpMkdir path) ->
  emits (sftp_mkdir w path) st Ev (fun _ st' => ops_files st' = ops_files st).
Proof.
  intros He. exists [SftpMkdir path]. unfold sftp_mkdir, bind, perform.
  destruct (fault w (trace st) (SftpMkdir path)); simpl.
  - split; [done|]. split; [by repeat constructor|done].
  - case_bool_decide; simpl; (split; [done|]; split; [by repeat constructor|]);
      intros a Ha; simplify_eq/=. done.
Qed.

Lemma emits_sftp_put localpath remotepath st :
  Ev (SftpPut localpath remotepath) ->
  emits (sftp_put w localpath remotepath) st Ev (fun _ st' => same_store st st').
Proof.
  intros He. eapply emits_weaken; [by apply emits_perform|].
  simpl. intros _ st' ->. auto.
Qed.

Lemma emits_np_load path st :
  Ev (NpLoad path) ->
  emits (np_load w path) st Ev
    (fun op st' => same_store st st' /\ ops_files st !! path = Some op).
Proof.
  intros He. exists [NpLoad path]. unfold np_load, bind, perform.
  destruct (fault w (trace st) (NpLoad path)); simpl.
  - split; [done|]. split; [by repeat constructor|done].
  - destruct (ops_files st !! path) as [op|]; simpl;
      (split; [done|]; split; [by repeat constructor|]); intros a Ha; simplify_eq/=.
    split; [by split|done].
Qed.

Lemma emits_np_save path op st :
  Ev (NpSave path op) ->
  emits (np_save w path op) st Ev
    (fun _ st' => remote_dirs st' = remote_dirs st /\
                  ops_files st' = <[path := op]> (ops_files st)).
Proof.
  intros He. exists [NpSave path op]. unfold np_save, bind, perform.
  destruct (fault w (trace st) (NpSave path op)); simpl;
    (split; [done|]; split; [by repeat constructor|done]).
Qed.

Lemma emits_os_path_getsize path st :
  Ev (Getsize path) ->
  emits (os_path_getsize w path) st Ev
    (fun size st' => same_store st st' /\ getsize w path = Some size).
Proof.
  intros He. unfold os_path_getsize. eapply emits_bind; [by apply emits_perform|].
  simpl. intros _ st' ->. eapply emits_weaken; [apply emits_of_option|].
  simpl. intros a st'' [-> ->]. auto.
Qed.

Lemma emits_getitem (d : gmap string value) k st :
  emits (getitem d k) st Ev (fun v st' => st' = st /\ d !! k = Some v).
Proof.
  unfold getitem. eapply emits_weaken; [apply emits_of_option|].
  simpl. intros a st' [-> ->]. auto.
Qed.

Lemma emits_Path_of_value v st :
  emits (Path_of_value w v) st Ev
    (fun p st' => st' = st /\ exists s, v = VStr s /\ p = PurePath.Path (os_flavour w) [s]).
Proof.
  destruct v; simpl; try apply emits_raise.
  eapply emits_weaken; [apply emits_ret|]. simpl. intros a st' [-> ->]. eauto.
Qed.

Lemma emits_plane_ipl pdir st :
  emits (plane_ipl w pdir) st Ev
    (fun ipl st' => st' = st /\ plane_ipl w pdir st = (st, Ret ipl)).
Proof.
  unfold plane_ipl, bind.
  destruct (last _) as [name|]; simpl; [|apply emits_raise].
  destruct (PyStr.int _) as [ipl|]; simpl; [|apply emits_raise].
  eapply emits_weaken; [apply emits_ret|]. simpl. intros a st' [-> ->]. auto.
Qed.

End Operations.

(** ** The phases of a plane *)

Lemma emits_mono {A} (m : M A) st (Ev Ev' : event -> Prop) (Post : A -> state -> Prop) :
  emits m st Ev Post -> (forall e, Ev e -> Ev' e) -> emits m st Ev' Post.
Proof.
  intros (evs & Ht & Hev & Hpost) Hw. exists evs. split; [done|]. split; [|done].
  eapply Forall_impl; eauto.
Qed.

Lemma emits_conj {A} (m : M A) st (Ev Ev' : event -> Prop)
    (Post Post' : A -> state -> Prop) :
  emits m st Ev Post -> emits m st Ev' Post' ->
  emits m st (fun e => Ev e /\ Ev' e) (fun a st' => Post a st' /\ Post' a st').
Proof.
  intros (evs & Ht & Hev & Hpost) (evs' & Ht' & Hev' & Hpost').
  assert (evs' = evs) as -> by (apply (app_inv_head (trace st)); congruence).
  exists evs. split; [done|]. split; [|by auto].
  apply Forall_forall. intros e He. rewrite Forall_forall in Hev, Hev'. auto.
Qed.

(** A literal file name is a path of one name, on either flavour. *)
Definition plain_literal (fl : flavour) (x : string) : Prop :=
  PurePath.Path fl [x] = PurePath.mk "" "" [x].

Lemma names_div_str fl p x :
  plain_literal fl x ->
  PurePath.names (PurePath.div_str fl p x) = PurePath.names p ++ [x].
Proof.
  intros Hx. unfold PurePath.div_str. rewrite Hx. reflexivity.
Qed.

Lemma plain_literals fl :
  plain_literal fl "data.bin" /\ plain_literal fl "data_chan2.bin" /\
  plain_literal fl "data_raw.bin" /\ plain_literal fl "data_raw_chan2.bin" /\
  plain_literal fl "data_chan2_raw.bin" /\ plain_literal fl "ops.npy".
Proof. destruct fl; vm_compute; done. Qed.

Lemma is_transfer_of_div_str fl l fast_disk_orig x remote :
  plain_literal fl x -> x ∈ l ->
  is_transfer_of l (SftpPut (PPath (PurePath.div_str fl fast_disk_orig x)) remote) = true.
Proof.
  intros Hx Hl. unfold is_transfer_of. rewrite names_div_str by done.
  rewrite last_snoc. by apply bool_decide_eq_true.
Qed.

Lemma has_key_insert_ne (d : gmap string value) k k' v :
  k <> k' -> has_key (<[k := v]> d) k' = has_key d k'.
Proof. intros Hk. unfold has_key. by rewrite lookup_insert_ne. Qed.

Section Phases.

Context (w : world).

Local Abbreviation fl := (os_flavour w).

(** The probe adds no transfer; when it answers [false] the directory was
    there and nothing has changed on the server. *)
Lemma emits_probe_remote (Ev : event -> Prop) path st :
  Ev (SftpStat path) -> Ev (Print "copying files") -> Ev (SftpMkdir path) ->
  emits (probe_remote w path) st Ev
    (fun copy st' =>
       ops_files st' = ops_files st /\
       (copy = false -> same_store st st' /\ path ∈ remote_dirs st)).
Proof.
  intros H1 H2 H3.
  unfold emits, probe_remote, sftp_stat, sftp_mkdir, print, try_except, perform,
    log, ret, bind.
  destruct (fault w (trace st) (SftpStat path)) as [e|]; simpl.
  2: destruct (bool_decide (path ∈ remote_dirs st)) eqn:Hin; simpl.
  2: { exists [SftpStat path]. split; [done|]. split; [by repeat constructor|].
       intros a [= <-]. split; [done|]. intros _.
       split; [by split|]. by apply bool_decide_eq_true in Hin. }
  all: try destruct (is_IOError e); simpl.
  all: repeat match goal with
         | |- context [fault w ?t ?e] => destruct (fault w t e); simpl
         | |- context [bool_decide ?P] => destruct (bool_decide P); simpl
         end.
  all: rewrite <- ?app_assoc; eexists; (split; [reflexivity|]);
    (split; [by repeat constructor|]); intros a Ha; simplify_eq; done.
Qed.

(** A computed run is a run. *)
Lemma emits_of_eq {A} (Ev : event -> Prop) (m : M A) st evs (a : A) :
  m st = (add_events evs st, Ret a) -> Forall Ev evs ->
  emits m st Ev (fun a' st' => a' = a /\ st' = add_events evs st).
Proof.
  intros Hm Hev. exists evs. rewrite Hm. simpl. split; [done|]. split; [done|].
  by intros a' [= <-].
Qed.

(** The probe of a directory that is there, the server answering. *)
Lemma probe_remote_present path st :
  path ∈ remote_dirs st -> fault w (trace st) (SftpStat path) = None ->
  probe_remote w path st = (add_events [SftpStat path] st, Ret false).
Proof.
  intros Hin Hf.
  unfold probe_remote, sftp_stat, try_except, perform, ret, bind.
  rewrite Hf. simpl. rewrite bool_decide_true by done. reflexivity.
Qed.

(** The binary files are transferred only when [copy] is set, and those
    transferred are the raw ones if [op] has the key ["raw_file"], the
    registered ones if not. *)
Lemma emits_transfer_binaries copy sp fast_disk_orig op st :
  emits (transfer_binaries w copy sp fast_disk_orig op) st
    (fun e => copy = true /\
              is_transfer_of (if has_key op "raw_file" then raw_names
                              else registered_names) e = true)
    (fun _ st' => same_store st st').
Proof.
  destruct (plain_literals fl) as (Hreg & Hreg2 & Hraw & Hraw2 & _).
  unfold transfer_binaries. rewrite has_key_insert_ne by done.
  destruct (has_key op "raw_file").
  - eapply emits_bind with (Mid := fun _ st' => same_store st st').
    { destruct copy; [|eapply emits_weaken; [apply emits_ret|by intros ? ? [_ ->]]].
      apply emits_sftp_put. split; [done|].
      apply is_transfer_of_div_str; [done|]. unfold raw_names. set_solver. }
    intros _ st1 Hst1. rewrite has_key_insert_ne by done.
    rewrite has_key_insert_ne by done.
    destruct (has_key op "raw_file_chan2").
    + eapply emits_bind with (Mid := fun _ st' => same_store st st').
      { destruct copy; [|eapply emits_weaken; [apply emits_ret|by intros ? ? [_ ->]]].
        eapply emits_weaken; [apply emits_sftp_put|].
        - split; [done|]. apply is_transfer_of_div_str; [done|].
          unfold raw_names. set_solver.
        - simpl. intros. by eapply same_store_trans. }
      intros _ st2 Hst2. eapply emits_weaken; [apply emits_ret|by intros ? ? [_ ->]].
    + eapply emits_weaken; [apply emits_ret|by intros ? ? [_ ->]].
  - eapply emits_bind with (Mid := fun _ st' => same_store st st').
    { destruct copy; [|eapply emits_weaken; [apply emits_ret|by intros ? ? [_ ->]]].
      apply emits_sftp_put. split; [done|].
      apply is_transfer_of_div_str; [done|]. unfold registered_names. set_solver. }
    intros _ st1 Hst1. rewrite has_key_insert_ne by done.
    destruct (has_key op "reg_file_chan2").
    + eapply emits_bind with (Mid := fun _ st' => same_store st st').
      { destruct copy; [|eapply emits_weaken; [apply emits_ret|by intros ? ? [_ ->]]].
        eapply emits_weaken; [apply emits_sftp_put|].
        - split; [done|]. apply is_transfer_of_div_str; [done|].
          unfold registered_names. set_solver.
        - simpl. intros. by eapply same_store_trans. }
      intros _ st2 Hst2. eapply emits_weaken; [apply emits_ret|by intros ? ? [_ ->]].
    + eapply emits_weaken; [apply emits_ret|by intros ? ? [_ ->]].
Qed.

(** Saving the descriptor: the only transfer is the one of the descriptor
    file, under [copy]. *)
Lemma emits_save_ops (Ev : event -> Prop) copy ops_path_orig op op_ops_path st :
  Ev (NpSave ops_path_orig op) ->
  (copy = true ->
   Ev (Print "copying ops") /\ Ev (SftpPut (PStr ops_path_orig) op_ops_path)) ->
  emits (save_ops w copy ops_path_orig op op_ops_path) st Ev
    (fun _ st' => remote_dirs st' = remote_dirs st /\
                  ops_files st' = <[ops_path_orig := op]> (ops_files st)).
Proof.
  intros Hsave Hput. unfold save_ops.
  eapply emits_bind; [by apply emits_np_save|]. simpl. intros _ st1 [Hd1 Ho1].
  destruct copy.
  - destruct (Hput eq_refl) as [Hp1 Hp2].
    eapply emits_bind; [by apply emits_print|]. simpl. intros _ st2 [Hd2 Ho2].
    eapply emits_weaken; [by apply emits_sftp_put|].
    simpl. intros _ st3 [Hd3 Ho3]. split; congruence.
  - eapply emits_weaken; [apply emits_ret|]. simpl. by intros ? ? [_ ->].
Qed.

(** The submission transfers nothing. *)
Lemma emits_submit_plane (Ev : event -> Prop) n_cores mult lsfargs ipl fd ops st :
  (forall e, is_transfer e = false -> is_NpSave e = false -> Ev e) ->
  emits (submit_plane w n_cores mult lsfargs ipl fd ops) st Ev
    (fun _ st' => same_store st st').
Proof.
  intros Hnt. unfold submit_plane.
  eapply emits_bind; [by apply emits_os_path_getsize, Hnt|]. simpl.
  intros size st1 [Hst1 _].
  eapply emits_bind; [by apply emits_log, Hnt|]. simpl. intros _ st2 ->.
  eapply emits_bind; [by apply emits_exec_command, Hnt|]. simpl. intros out st3 Hst3.
  eapply emits_bind; [by apply emits_exec_command, Hnt|]. simpl. intros out' st4 Hst4.
  eapply emits_bind; [apply emits_of_option|]. simpl. intros line st5 [_ ->].
  eapply emits_weaken; [by apply emits_print, Hnt|]. simpl. intros _ st6 Hst6.
  eapply same_store_trans; [exact Hst1|].
  eapply same_store_trans; [apply same_store_add_events|].
  eapply same_store_trans; [exact Hst3|].
  eapply same_store_trans; [exact Hst4|exact Hst6].
Qed.

(** The events of a plane: [Ev] holds of all of them as soon as it holds
    of the events that are not transfers and, unless the directory of the
    plane is on the server ([may_copy = false]), of the transfer of the
    descriptor and of the transfers of the kind the descriptor asks for. *)
Lemma emits_send_plane (Ev : event -> Prop) (may_copy : bool)
    sp0 sfn n_cores mult lsfargs pdir st :
  (forall e, is_transfer e = false -> Ev e) ->
  (may_copy = true -> forall s r, Ev (SftpPut (PStr s) r)) ->
  (may_copy = true -> forall op e,
     ops_files st !! (pdir +:+ "ops.npy") = Some op ->
     is_transfer_of (if has_key op "raw_file" then raw_names else registered_names) e
       = true ->
     Ev e) ->
  (may_copy = false -> forall ipl,
     plane_ipl w pdir st = (st, Ret ipl) ->
     let path := unix_path fl (save_path w sp0 sfn ipl) in
     path ∈ remote_dirs st /\ forall tr, fault w tr (SftpStat path) = None) ->
  emits (send_plane w sp0 sfn n_cores mult lsfargs pdir) st Ev (fun _ _ => True).
Proof.
  intros Hnt Hstr Hbin Hthere. unfold send_plane.
  eapply emits_bind; [apply emits_plane_ipl|]. simpl. intros ipl ? [-> Hipl].
  eapply emits_bind; [by apply emits_print, Hnt|]. simpl. intros _ st1 Hst1.
  eapply emits_bind; [by apply emits_np_load, Hnt|]. simpl. intros op st2 [Hst2 Hop].
  eapply emits_bind; [apply emits_getitem|]. simpl. intros v ? [-> Hv].
  eapply emits_bind; [apply emits_Path_of_value|]. simpl. intros fdo ? [-> _].
  eapply emits_bind; [by apply emits_print, Hnt|]. simpl. intros _ st3 Hst3.
  pose proof (same_store_trans _ _ _ Hst1 (same_store_trans _ _ _ Hst2 Hst3)) as Hst.
  set (path := unix_path (os_flavour w) (save_path w sp0 sfn ipl)).
  eapply emits_bind with
    (Mid := fun copy st' => may_copy = false -> copy = false).
  { destruct may_copy.
    - eapply emits_weaken; [by apply emits_probe_remote; apply Hnt|]. done.
    - destruct (Hthere eq_refl ipl Hipl) as [Hin Hf].
      eapply emits_weaken;
        [eapply emits_of_eq; [apply probe_remote_present|]|].
      + destruct Hst as [-> _]. exact Hin.
      + apply Hf.
      + repeat constructor. by apply Hnt.
      + simpl. by intros ? ? [-> _]. }
  intros copy st4 Hcopy.
  eapply emits_bind with (Mid := fun _ _ => True).
  { eapply emits_weaken; [eapply emits_mono; [apply emits_transfer_binaries|]|done].
    simpl. intros e [-> He]. destruct may_copy; [|by specialize (Hcopy eq_refl)].
    apply (Hbin eq_refl op); [destruct Hst1 as [_ Ho]; by rewrite <- Ho|].
    revert He. rewrite !has_key_insert_ne by done. done. }
  intros op' st5 _.
  eapply emits_bind with (Mid := fun _ _ => True).
  { eapply emits_weaken; [apply emits_save_ops; [by apply Hnt|]|done].
    intros ->. split; [by apply Hnt|].
    destruct may_copy; [by apply Hstr|by specialize (Hcopy eq_refl)]. }
  intros _ st6 _. eapply emits_weaken; [apply emits_submit_plane|done].
  intros e He _. by apply Hnt.
Qed.

End Phases.

(** ** Transfers *)

Lemma raw_not_registered e :
  is_transfer_of raw_names e = true -> is_registered_transfer e = false.
Proof.
  unfold is_registered_transfer, is_transfer_of.
  destruct e as [| | | | | | | |[|p] r| | | | | | |]; try done.
  destruct (last (PurePath.names p)) as [x|]; [|done].
  intros Hx%bool_decide_eq_true. apply bool_decide_eq_false. intros Hy.
  apply list_elem_of_In in Hx, Hy. simpl in Hx, Hy. intuition congruence.
Qed.

Lemma registered_not_raw e :
  is_transfer_of registered_names e = true -> is_raw_transfer e = false.
Proof.
  unfold is_raw_transfer, is_transfer_of.
  destruct e as [| | | | | | | |[|p] r| | | | | | |]; try done.
  destruct (last (PurePath.names p)) as [x|]; [|done].
  intros Hx%bool_decide_eq_true. apply bool_decide_eq_false. intros Hy.
  apply list_elem_of_In in Hx, Hy. simpl in Hx, Hy. intuition congruence.
Qed.

Lemma not_transfer_not_of l e : is_transfer e = false -> is_transfer_of l e = false.
Proof. by destruct e. Qed.

(** C8. Raw and registered transfers exclude each other: among the events
    of a plane whose descriptor has the key ["raw_file"] there is no transfer
    of a registered-data file ([data.bin], [data_chan2.bin]), and among the
    events of a plane whose descriptor lacks it there is no transfer of a
    raw-data file ([data_raw.bin], [data_raw_chan2.bin]); so no plane has
    both. This holds of every run, failed ones included. *)
Theorem raw_and_registered_transfers_exclusive
    w sp0 sfn n_cores mult lsfargs pdir st op :
  ops_files st !! (pdir +:+ "ops.npy") = Some op ->
  exists evs,
    trace (send_plane w sp0 sfn n_cores mult lsfargs pdir st).1 = trace st ++ evs /\
    (has_key op "raw_file" = true ->
     Forall (fun e => is_registered_transfer e = false) evs) /\
    (has_key op "raw_file" = false ->
     Forall (fun e => is_raw_transfer e = false) evs) /\
    ~ (Exists (fun e => is_raw_transfer e = true) evs /\
       Exists (fun e => is_registered_transfer e = true) evs).
Proof.
  intros Hop.
  assert (emits (send_plane w sp0 sfn n_cores mult lsfargs pdir) st
            (fun e => if has_key op "raw_file" then is_registered_transfer e = false
                      else is_raw_transfer e = false) (fun _ _ => True))
    as (evs & Ht & Hev & _).
  { apply emits_send_plane with (may_copy := true); try done.
    - intros e He. destruct (has_key op "raw_file"); by apply not_transfer_not_of.
    - intros _ s r. by destruct (has_key op "raw_file").
    - intros _ op' e Hop' He. assert (op' = op) as -> by congruence.
      destruct (has_key op "raw_file");
        [by apply raw_not_registered|by apply registered_not_raw]. }
  exists evs. split; [done|].
  destruct (has_key op "raw_file"); (split; [|split]); try done.
  - intros [_ Hreg]. apply Exists_exists in Hreg as (e & He & Hreg).
    rewrite Forall_forall in Hev. specialize (Hev e He). congruence.
  - intros [Hraw _]. apply Exists_exists in Hraw as (e & He & Hraw).
    rewrite Forall_forall in Hev. specialize (Hev e He). congruence.
Qed.

(** Plane 0 of the laboratory, which has raw data, on a server without its
    directory: the raw file goes over, no registered file does. *)
Lemma raw_and_registered_transfers_exclusive_witness :
  let w := lab_world no_fault in
  let st := lab_state ∅ in
  ops_files st !! "/data/s2p/plane0/ops.npy" = Some lab_op_raw /\
  exists evs,
    trace (lab_send_plane w "/data/s2p/plane0/" st).1 = trace st ++ evs /\
    (has_key lab_op_raw "raw_file" = true ->
     Forall (fun e => is_registered_transfer e = false) evs) /\
    (has_key lab_op_raw "raw_file" = false ->
     Forall (fun e => is_raw_transfer e = false) evs) /\
    ~ (Exists (fun e => is_raw_transfer e = true) evs /\
       Exists (fun e => is_registered_transfer e = true) evs).
Proof.
  split; [reflexivity|].
  apply (raw_and_registered_transfers_exclusive (lab_world no_fault)
           (save_path0_server (lab_world no_fault) "/data" "/srv/lab" "/data/s2p")
           "s2p" 8 (PyInt 2) "" "/data/s2p/plane0/" (lab_state ∅) lab_op_raw).
  reflexivity.
Defined.

(** ** Runs in which nothing fails *)

Lemma runs_ret {A} (a : A) st : runs (ret a) st [] (Ret a) st.
Proof. split; [done|]. by rewrite app_nil_r. Qed.

Lemma runs_bind {A B} (m : M A) (f : A -> M B) st evs a st1 evs' r st2 :
  runs m st evs (Ret a) st1 -> runs (f a) st1 evs' r st2 ->
  runs (bind m f) st (evs ++ evs') r st2.
Proof.
  intros [Hm Ht] [Hf Ht']. split.
  - unfold bind. by rewrite Hm.
  - by rewrite Ht', Ht, app_assoc.
Qed.

Lemma runs_log e st : runs (log e) st [e] (Ret tt) (add_events [e] st).
Proof. by split. Qed.

Lemma runs_of_option {A} e (o : option A) a st :
  o = Some a -> runs (of_option e o) st [] (Ret a) st.
Proof. intros ->. apply runs_ret. Qed.

Section NoFault.

Context (w : world) (Hnf : forall tr e, fault w tr e = None).

Local Abbreviation fl := (os_flavour w).

Lemma runs_perform e st : runs (perform w e) st [e] (Ret tt) (add_events [e] st).
Proof. unfold runs, perform. rewrite Hnf. by split. Qed.

Lemma runs_exec_command cmd st :
  runs (exec_command w cmd) st [ExecCommand cmd] (Ret (exec_stdout w cmd))
    (add_events [ExecCommand cmd] st).
Proof.
  unfold exec_command. change [ExecCommand cmd] with ([ExecCommand cmd] ++ []).
  eapply runs_bind; [apply runs_perform|apply runs_ret].
Qed.

Lemma runs_np_load path op st :
  ops_files st !! path = Some op ->
  runs (np_load w path) st [NpLoad path] (Ret op) (add_events [NpLoad path] st).
Proof.
  intros Hop. unfold runs, np_load, perform, bind. rewrite Hnf. simpl.
  by rewrite Hop.
Qed.

(** The probe of a directory that is not there: it is made, and [copy] is
    set. *)
Lemma runs_probe_remote_absent path st :
  path ∉ remote_dirs st ->
  runs (probe_remote w path) st
    [SftpStat path; Print "copying files"; SftpMkdir path] (Ret true)
    (add_dir path
       (add_events [SftpStat path; Print "copying files"; SftpMkdir path] st)).
Proof.
  intros Hin.
  unfold runs, probe_remote, sftp_stat, sftp_mkdir, print, try_except, perform,
    log, ret, bind.
  rewrite Hnf. simpl. rewrite bool_decide_false by done. simpl.
  rewrite Hnf. simpl. rewrite bool_decide_false by done. simpl.
  unfold add_dir, add_events. simpl. rewrite <- !app_assoc. done.
Qed.

Lemma runs_sftp_put l r st :
  runs (sftp_put w l r) st [SftpPut l r] (Ret tt) (add_events [SftpPut l r] st).
Proof. apply runs_perform. Qed.

Lemma runs_when (b : bool) (m : M unit) st evs st' :
  runs m st evs (Ret tt) st' ->
  runs (if b then m else ret tt) st (if b then evs else []) (Ret tt)
    (if b then st' else st).
Proof. destruct b; [done|]. intros _. apply runs_ret. Qed.

(** The transfers of the binary files succeed; under [copy] the file of the
    first channel is among them, the raw one if the descriptor has the key
    ["raw_file"], the registered one if not. *)
Lemma runs_transfer_binaries copy sp fast_disk_orig op st :
  exists evs op' st',
    runs (transfer_binaries w copy sp fast_disk_orig op) st evs (Ret op') st' /\
    same_store st st' /\
    (copy = true ->
     let x := if has_key op "raw_file" then "data_raw.bin" else "data.bin" in
     SftpPut (PPath (PurePath.div_str fl fast_disk_orig x))
       (unix_path fl (PurePath.div_str fl sp x)) ∈ evs).
Proof.
  unfold transfer_binaries. rewrite has_key_insert_ne by done.
  destruct (has_key op "raw_file"); rewrite !has_key_insert_ne by done.
  - destruct (has_key op "raw_file_chan2"); destruct copy;
      eexists _, _, _;
      (split; [repeat first
         [ apply runs_ret | apply runs_sftp_put
         | eapply runs_bind; [first [apply runs_sftp_put|apply runs_ret]|] ]|]);
      (split; [by split|]); try done; intros _; simpl; apply list_elem_of_here.
  - destruct (has_key op "reg_file_chan2"); destruct copy;
      eexists _, _, _;
      (split; [repeat first
         [ apply runs_ret | apply runs_sftp_put
         | eapply runs_bind; [first [apply runs_sftp_put|apply runs_ret]|] ]|]);
      (split; [by split|]); try done; intros _; simpl; apply list_elem_of_here.
Qed.

Lemma runs_save_ops copy ops_path_orig op op_ops_path st :
  exists st',
    runs (save_ops w copy ops_path_orig op op_ops_path) st
      (NpSave ops_path_orig op ::
       if copy then [Print "copying ops"; SftpPut (PStr ops_path_orig) op_ops_path]
       else []) (Ret tt) st' /\
    remote_dirs st' = remote_dirs st.
Proof.
  unfold runs, save_ops, np_save, sftp_put, print, perform, log, ret, bind.
  rewrite Hnf. simpl. destruct copy; simpl; rewrite ?Hnf; simpl;
    eexists; (split; [split; [reflexivity|]|]); simpl; rewrite <- ?app_assoc; done.
Qed.

(** The submission: the size is asked for, the command is sent. *)
Lemma runs_submit_plane n_cores mult lsfargs ipl op_fast_disk op_ops_path size st :
  getsize w (PurePath.str fl (sized_file w op_fast_disk)) = Some size ->
  exists evs r st',
    runs (submit_plane w n_cores mult lsfargs ipl op_fast_disk op_ops_path) st evs r st' /\
    (r = Ret tt \/ r = Raise IndexError) /\
    ExecCommand
      (run_command n_cores ipl (mem_request w mult size) lsfargs
         (PyStr.strip (exec_stdout w "echo $HOME")) op_ops_path) ∈ evs.
Proof.
  intros Hsize.
  unfold runs, submit_plane, os_path_getsize, exec_command, print, perform, log,
    of_option, ret, bind.
  rewrite Hnf. simpl. rewrite Hsize. simpl. repeat (rewrite Hnf; simpl).
  destruct (head _) as [line|]; simpl;
    eexists _, _, _; (split; [split; [reflexivity|]|]); simpl;
    rewrite <- ?app_assoc; try reflexivity; (split; [by auto|]); simpl;
    do 3 apply list_elem_of_further; apply list_elem_of_here.
Qed.

(** C5. Dispatch skips the transfers of a plane that is already on the
    server, and submits its job all the same. In a run of a plane in which
    nothing fails the [bsub] command is sent; if the directory of the plane
    is on the server when it is probed, no file is transferred, neither a
    binary file nor the descriptor; if it is not, the binary file of the
    first channel and the descriptor are transferred. *)
Theorem redispatch_skips_transfers_and_submits
    sp0 sfn n_cores mult lsfargs pdir st ipl op fd size :
  plane_ipl w pdir st = (st, Ret ipl) ->
  ops_files st !! (pdir +:+ "ops.npy") = Some op ->
  op !! "fast_disk" = Some (VStr fd) ->
  let sp := save_path w sp0 sfn ipl in
  let path := unix_path fl sp in
  let ops_path := unix_path fl (PurePath.div_str fl sp "ops.npy") in
  getsize w (PurePath.str fl (sized_file w path)) = Some size ->
  let cmd :=
    run_command n_cores ipl (mem_request w mult size) lsfargs
      (PyStr.strip (exec_stdout w "echo $HOME")) ops_path in
  exists evs r st',
    send_plane w sp0 sfn n_cores mult lsfargs pdir st = (st', r) /\
    trace st' = trace st ++ evs /\
    (r = Ret tt \/ r = Raise IndexError) /\
    ExecCommand cmd ∈ evs /\
    (path ∈ remote_dirs st -> Forall (fun e => is_transfer e = false) evs) /\
    (path ∉ remote_dirs st ->
     let x := if has_key op "raw_file" then "data_raw.bin" else "data.bin" in
     SftpPut (PPath (PurePath.div_str fl (PurePath.Path fl [fd]) x))
       (unix_path fl (PurePath.div_str fl sp x)) ∈ evs /\
     SftpPut (PStr (pdir +:+ "ops.npy")) ops_path ∈ evs).
Proof.
  intros Hipl Hop Hfd sp path ops_path Hsize cmd.
  set (banner := ">>>>>>>>>> PLANE " +:+ PyStr.fmt_d ipl +:+ " <<<<<<<<<").
  set (st1 := add_events [Print ops_path]
                (add_events [NpLoad (pdir +:+ "ops.npy")]
                   (add_events [Print banner] st))).
  (* the probe *)
  assert (exists copy evs_p st2,
            runs (probe_remote w path) st1 evs_p (Ret copy) st2 /\
            ops_files st2 = ops_files st /\
            copy = negb (bool_decide (path ∈ remote_dirs st)) /\
            Forall (fun e => is_transfer e = false) evs_p)
    as (copy & evs_p & st2 & Hprobe & Hops2 & Hcopy & Hnt_p).
  { destruct (decide (path ∈ remote_dirs st)) as [Hin|Hin].
    - exists false, [SftpStat path], (add_events [SftpStat path] st1).
      split; [split; [by apply probe_remote_present|done]|].
      rewrite bool_decide_true by done. repeat split; by repeat constructor.
    - eexists true, _, _. split; [by apply runs_probe_remote_absent|].
      rewrite bool_decide_false by done. repeat split; by repeat constructor. }
  destruct (runs_transfer_binaries copy sp (PurePath.Path fl [fd])
              (<["ops_path" := VStr ops_path]>
                 (<["fast_disk" := VStr path]>
                    (<["save_path" := VStr path]>
                       (<["save_folder" := VStr sfn]>
                          (<["save_path0" := VStr (unix_path fl sp0)]> op))))) st2)
    as (evs_t & op' & st3 & Htrans & Hst3 & Hput).
  destruct (runs_save_ops copy (pdir +:+ "ops.npy") op' ops_path st3)
    as (st4 & Hsave & _).
  destruct (runs_submit_plane n_cores mult lsfargs ipl path ops_path size st4 Hsize)
    as (evs_s & r & st5 & Hsub & Hr & Hcmd).
  assert (runs (send_plane w sp0 sfn n_cores mult lsfargs pdir) st
            ([] ++ [Print banner] ++ [NpLoad (pdir +:+ "ops.npy")] ++ [] ++ [] ++
             [Print ops_path] ++ evs_p ++ evs_t ++
             (NpSave (pdir +:+ "ops.npy") op' ::
              if copy then [Print "copying ops";
                            SftpPut (PStr (pdir +:+ "ops.npy")) ops_path] else []) ++
             evs_s) r st5) as [Hrun Htrace].
  { unfold send_plane.
    eapply runs_bind; [split; [exact Hipl|by rewrite app_nil_r]|].
    eapply runs_bind; [apply runs_log|].
    eapply runs_bind; [by apply runs_np_load|].
    eapply runs_bind; [by apply runs_of_option|].
    eapply runs_bind; [apply runs_ret|].
    eapply runs_bind; [apply runs_log|].
    eapply runs_bind; [exact Hprobe|].
    eapply runs_bind; [exact Htrans|].
    eapply runs_bind; [exact Hsave|]. exact Hsub. }
  eexists _, r, st5. split; [exact Hrun|]. split; [exact Htrace|]. split; [done|].
  simpl. split; [|split].
  - do 3 apply list_elem_of_further. rewrite !elem_of_app. right. right.
    rewrite elem_of_cons, elem_of_app. auto.
  - intros Hin. rewrite bool_decide_true in Hcopy by done. simpl in Hcopy. subst copy.
    destruct (emits_transfer_binaries w false sp (PurePath.Path fl [fd])
                (<["ops_path" := VStr ops_path]>
                   (<["fast_disk" := VStr path]>
                      (<["save_path" := VStr path]>
                         (<["save_folder" := VStr sfn]>
                            (<["save_path0" := VStr (unix_path fl sp0)]> op))))) st2)
      as (evs_t' & Ht' & Hev' & _).
    destruct Htrans as [Htm Htt]. rewrite Htm in Ht'. simpl in Ht'.
    assert (evs_t' = evs_t) as -> by (apply (app_inv_head (trace st2)); congruence).
    assert (evs_t = []) as ->.
    { destruct evs_t as [|e ?]; [done|]. by apply Forall_cons in Hev' as [[? _] _]. }
    destruct (emits_submit_plane w (fun e => is_transfer e = false) n_cores mult
                lsfargs ipl path ops_path st4) as (evs_s' & Hs' & Hevs' & _); [done|].
    destruct Hsub as [Hsm Hst]. rewrite Hsm in Hs'. simpl in Hs'.
    assert (evs_s' = evs_s) as -> by (apply (app_inv_head (trace st4)); congruence).
    repeat (apply Forall_cons; split; [done|]).
    apply Forall_app. split; [done|]. simpl.
    apply Forall_cons. split; [done|]. done.
  - intros Hin. rewrite bool_decide_false in Hcopy by done. simpl in Hcopy. subst copy.
    split.
    + do 3 apply list_elem_of_further. rewrite !elem_of_app. right. left.
      specialize (Hput eq_refl). revert Hput. simpl.
      rewrite !has_key_insert_ne by done. done.
    + do 3 apply list_elem_of_further. rewrite !elem_of_app. right. right. simpl.
      do 2 apply list_elem_of_further. apply list_elem_of_here.
Qed.

End NoFault.

(** Plane 0 of the laboratory, dispatched again: its directory is on the
    server. *)
Lemma redispatch_skips_transfers_and_submits_witness :
  let w := lab_world no_fault in
  let st := lab_state {[ "/srv/lab/s2p/plane0" ]} in
  "/srv/lab/s2p/plane0" ∈ remote_dirs st /\
  exists evs r st',
    lab_send_plane w "/data/s2p/plane0/" st = (st', r) /\
    trace st' = trace st ++ evs /\
    (r = Ret tt \/ r = Raise IndexError) /\
    ExecCommand
      ("bsub -n 8 -J test_s2p0 -o out0.txt -e error0.log -M 10  " +:+ dq +:+
       "/home/remote/run_script.sh '/srv/lab/s2p/plane0/ops.npy' > log0.txt" +:+ dq)
      ∈ evs /\
    Forall (fun e => is_transfer e = false) evs.
Proof.
  intros w st.
  assert ("/srv/lab/s2p/plane0" ∈ remote_dirs st) as Hin by (by vm_compute).
  split; [exact Hin|].
  destruct (redispatch_skips_transfers_and_submits w (fun _ _ => eq_refl)
              (save_path0_server w "/data" "/srv/lab" "/data/s2p") "s2p" 8 (PyInt 2) ""
              "/data/s2p/plane0/" st 0 lab_op_raw "/fast/s2p/plane0" 5000000
              eq_refl eq_refl eq_refl eq_refl)
    as (evs & r & st' & Hrun & Htr & Hr & Hcmd & Hpresent & _).
  exists evs, r, st'. repeat split; try done. by apply Hpresent.
Defined.

(** Whatever fails elsewhere, a plane whose directory is on the server, the
    server answering the probe, has no file transferred. *)
Lemma present_plane_transfers_nothing w sp0 sfn n_cores mult lsfargs pdir st :
  (forall ipl, plane_ipl w pdir st = (st, Ret ipl) ->
     let path := unix_path (os_flavour w) (save_path w sp0 sfn ipl) in
     path ∈ remote_dirs st /\ forall tr, fault w tr (SftpStat path) = None) ->
  exists evs,
    trace (send_plane w sp0 sfn n_cores mult lsfargs pdir st).1 = trace st ++ evs /\
    Forall (fun e => is_transfer e = false) evs.
Proof.
  intros Hthere.
  destruct (emits_send_plane w (fun e => is_transfer e = false) false
              sp0 sfn n_cores mult lsfargs pdir st) as (evs & Ht & Hev & _);
    try done.
  by exists evs.
Qed.

(** ** The probe and the errors of the server *)

(** C1, as the code has it. Whatever [IOError] the remote [stat] raises, be
    it for a missing path, for a refused permission or for any other failure
    status, the probe takes the directory to be absent: it prints, makes the
    directory and sets [copy]. Only an exception that is not an [IOError]
    leaves the probe. *)
Theorem probe_remote_treats_every_IOError_as_absent w path st st1 e :
  sftp_stat w path st = (st1, Raise e) ->
  (is_IOError e = true ->
   probe_remote w path st =
     bind (sftp_mkdir w path) (fun _ => ret true)
       (add_events [Print "copying files"] st1)) /\
  (is_IOError e = false -> probe_remote w path st = (st1, Raise e)).
Proof.
  intros Hstat.
  assert (bind (sftp_stat w path) (fun _ => ret false) st = (st1, Raise e)) as Hbody
    by (unfold bind; by rewrite Hstat).
  unfold probe_remote, try_except. rewrite Hbody.
  split; intros ->; [|done]. unfold bind, print, log. reflexivity.
Qed.

(** A missing path is one such [IOError]: without a fault, the probe of a
    directory the server lacks makes it and sets [copy]. *)
Lemma probe_remote_treats_every_IOError_as_absent_witness :
  let w := lab_world no_fault in
  let st := lab_state ∅ in
  sftp_stat w "/srv/lab/s2p/plane0" st =
    (add_events [SftpStat "/srv/lab/s2p/plane0"] st,
     Raise (OSError (Some ENOENT) "No such file")) /\
  (probe_remote w "/srv/lab/s2p/plane0" st).2 = Ret true.
Proof.
  intros w st. split; [reflexivity|].
  destruct (probe_remote_treats_every_IOError_as_absent w "/srv/lab/s2p/plane0" st
              (add_events [SftpStat "/srv/lab/s2p/plane0"] st)
              (OSError (Some ENOENT) "No such file") eq_refl) as [Hio _].
  rewrite (Hio eq_refl). reflexivity.
Defined.

(** C1, as stated, fails: the server refuses the [stat] of the directory of
    plane 0 for want of permission, which is not a not-found error; the
    error does not leave the probe, which answers "copy" after making the
    directory, and the plane goes on to transfer its files and to submit its
    job. *)
Lemma permission_failure_is_taken_for_absence :
  let w := lab_world stat_denied in
  let st := lab_state ∅ in
  (sftp_stat w "/srv/lab/s2p/plane0" st).2 =
    Raise (OSError (Some EACCES) "Permission denied") /\
  (probe_remote w "/srv/lab/s2p/plane0" st).2 = Ret true /\
  (lab_send_plane w "/data/s2p/plane0/" st).2 = Ret tt /\
  List.filter (fun e => match e with SftpStat _ | SftpMkdir _ | SftpPut _ _ => true
                                   | _ => false end)
    (trace (lab_send_plane w "/data/s2p/plane0/" st).1) =
    [SftpStat "/srv/lab/s2p/plane0"; SftpMkdir "/srv/lab/s2p/plane0";
     SftpPut (PPath (PurePath.mk "" "/" ["fast"; "s2p"; "plane0"; "data_raw.bin"]))
       "/srv/lab/s2p/plane0/data_raw.bin";
     SftpPut (PStr "/data/s2p/plane0/ops.npy") "/srv/lab/s2p/plane0/ops.npy"].
Proof. vm_compute. repeat split. Qed.

(** ** The file whose size is asked for *)

(** The submission asks for the size of [sized_file], whatever the
    descriptor says about raw data. *)
Lemma submit_plane_asks_for_sized_file w n_cores mult lsfargs ipl fd ops st :
  exists evs,
    trace (submit_plane w n_cores mult lsfargs ipl fd ops st).1 =
      trace st ++ Getsize (PurePath.str (os_flavour w) (sized_file w fd)) :: evs.
Proof.
  unfold submit_plane, os_path_getsize, exec_command, print, of_option, perform, log,
    ret, raise, bind.
  repeat match goal with
         | |- context [fault w ?t ?e] => destruct (fault w t e); simpl
         | |- context [getsize w ?p] => destruct (getsize w p); simpl
         | |- context [head ?l] => destruct (head l); simpl
         end;
    rewrite <- ?app_assoc; simpl; eexists; reflexivity.
Qed.

(** C2, at a plane without raw data. Plane 1 of the laboratory has no key
    ["raw_file"]; its registered file [data.bin] is on the local disk, under
    the local [fast_disk] and under the mount of the server. The size the
    code asks for is that of [data_raw.bin] under the rewritten
    [op['fast_disk']]: the file is not there, [os.path.getsize] raises and no
    job is submitted. *)
Theorem size_is_asked_of_data_raw_under_the_rewritten_path :
  let w := lab_world no_fault in
  let st := lab_state ∅ in
  let run := lab_send_plane w "/data/s2p/plane1/" st in
  has_key lab_op_reg "raw_file" = false /\
  getsize w "/fast/s2p/plane1/data.bin" = Some 3500000 /\
  run.2 = Raise (OSError (Some ENOENT) "No such file or directory") /\
  last (trace run.1) = Some (Getsize "/srv/lab/s2p/plane1/data_raw.bin") /\
  List.filter (fun e => match e with ExecCommand _ => true | _ => false end)
    (trace run.1) = [].
Proof. vm_compute. repeat split. Qed.

(** ** Strings *)

Lemma string_app_cons x (a b : string) : String x a +:+ b = String x (a +:+ b).
Proof. reflexivity. Qed.

Lemma string_app_nil_l (b : string) : "" +:+ b = b.
Proof. reflexivity. Qed.

Lemma string_app_assoc (a b c : string) : (a +:+ b) +:+ c = a +:+ (b +:+ c).
Proof.
  induction a as [|x a IH]; [done|]. rewrite !string_app_cons. by f_equal.
Qed.

Lemma string_app_nil_r (a : string) : a +:+ "" = a.
Proof. induction a as [|x a IH]; [done|]. rewrite string_app_cons. by f_equal. Qed.

Lemma string_app_eq_nil (a b : string) : a +:+ b = "" -> a = "" /\ b = "".
Proof. destruct a; [done|]. rewrite string_app_cons. discriminate. Qed.

Lemma contains_app c (a b : string) :
  PyStr.contains c (a +:+ b) = PyStr.contains c a || PyStr.contains c b.
Proof.
  induction a as [|x a IH]; [done|]. rewrite string_app_cons. simpl.
  rewrite IH. by rewrite orb_assoc.
Qed.

Lemma replace_app c n (a b : string) :
  PyStr.replace c n (a +:+ b) = PyStr.replace c n a +:+ PyStr.replace c n b.
Proof.
  induction a as [|x a IH]; [done|]. rewrite string_app_cons. simpl.
  destruct (Ascii.eqb x c); rewrite IH; [|done]. by rewrite string_app_assoc.
Qed.

Lemma replace_id c n (x : string) :
  PyStr.contains c x = false -> PyStr.replace c n x = x.
Proof.
  induction x as [|a x IH]; simpl; [done|].
  destruct (Ascii.eqb a c); simpl; [done|]. intros H. by rewrite IH.
Qed.

(** After [replace] the old character is gone, if the new text has none. *)
Lemma contains_replace c n (s : string) :
  PyStr.contains c n = false -> PyStr.contains c (PyStr.replace c n s) = false.
Proof.
  intros Hn. induction s as [|a s IH]; simpl; [done|].
  destruct (Ascii.eqb a c) eqn:Ha; simpl.
  - by rewrite contains_app, Hn, IH.
  - by rewrite Ha, IH.
Qed.

Lemma replace_eq_nil c (s : string) : PyStr.replace c "/" s = "" -> s = "".
Proof. destruct s as [|a s]; simpl; [done|]. destruct (Ascii.eqb a c); discriminate. Qed.

(** The pieces of [split] have no separator in them. *)
Lemma split_sep_free c (s : string) :
  Forall (fun x => PyStr.contains c x = false) (PyStr.split c s).
Proof.
  induction s as [|a s IH]; simpl; [by repeat constructor|].
  destruct (Ascii.eqb a c) eqn:Ha; [by constructor|].
  destruct (PyStr.split c s) as [|x xs]; [by repeat constructor; simpl; rewrite Ha|].
  apply Forall_cons in IH as [Hx Hxs]. constructor; [|done]. simpl. by rewrite Ha.
Qed.

Lemma join_cons2 c (x y : string) (l : list string) :
  PyStr.join c (x :: y :: l) = x +:+ c +:+ PyStr.join c (y :: l).
Proof. reflexivity. Qed.

(** Replacing the separator in a joined list of names changes the
    separators and nothing else. *)
Lemma replace_join c (l : list string) :
  Forall (fun x => PyStr.contains c x = false) l ->
  PyStr.replace c "/" (PyStr.join (String c "") l) = PyStr.join "/" l.
Proof.
  induction l as [|x l IH]; [done|]. intros [Hx Hl]%Forall_cons.
  destruct l as [|y l]; [by apply replace_id|].
  rewrite !join_cons2, !replace_app, (replace_id _ _ x), IH by done.
  simpl PyStr.replace at 1. by rewrite Ascii.eqb_refl.
Qed.

Lemma contains_join c (sepc : ascii) (l : list string) :
  sepc <> c -> Forall (fun x => PyStr.contains c x = false) l ->
  PyStr.contains c (PyStr.join (String sepc "") l) = false.
Proof.
  intros Hc. induction l as [|x l IH]; [done|]. intros [Hx Hl]%Forall_cons.
  destruct l as [|y l]; [done|].
  rewrite join_cons2, !contains_app, Hx, IH by done. simpl.
  destruct (Ascii.eqb_spec sepc c); [done|]. done.
Qed.

(** ** Paths *)

Lemma rel_names_sep_free fl rel : Forall (sep_free fl) (PurePath.rel_names fl rel).
Proof.
  unfold PurePath.rel_names. apply Forall_forall. intros x [_ Hx]%list_elem_of_filter.
  pose proof (split_sep_free (PurePath.sep fl) rel) as H.
  rewrite Forall_forall in H. by apply H.
Qed.

Lemma parse_rev_wf fl rparts : forall acc,
  Forall (sep_free fl) acc -> wf_names fl (PurePath.parse_rev fl rparts acc).
Proof.
  induction rparts as [|part before IH]; intros acc Hacc; simpl; [done|].
  case_bool_decide; [by apply IH|].
  destruct (PurePath.splitroot fl (PurePath.normsep fl part)) as [[d r] rel].
  assert (Forall (sep_free fl) (PurePath.rel_names fl rel ++ acc)) as Hacc'
    by (apply Forall_app; split; [apply rel_names_sep_free|done]).
  destruct (bool_decide (d = "") && bool_decide (r = "")); [by apply IH|done].
Qed.

(** The names of a parsed path have no separator in them. *)
Lemma Path_wf fl args : wf_names fl (PurePath.Path fl args).
Proof. apply parse_rev_wf. constructor. Qed.

Lemma join_parsed_parts_wf fl p q :
  wf_names fl p -> wf_names fl q -> wf_names fl (PurePath.join_parsed_parts fl p q).
Proof.
  intros Hp Hq. unfold PurePath.join_parsed_parts, wf_names.
  repeat match goal with |- context [if ?b then _ else _] => destruct b end;
    simpl; try done; by apply Forall_app.
Qed.

Lemma div_str_wf fl p x : wf_names fl p -> wf_names fl (PurePath.div_str fl p x).
Proof. intros Hp. apply join_parsed_parts_wf; [done|apply Path_wf]. Qed.

Lemma div_wf fl p q : wf_names fl p -> wf_names fl (PurePath.div fl p q).
Proof. intros Hp. apply join_parsed_parts_wf; [done|apply Path_wf]. Qed.

Lemma sep_str_not_dot fl : PyStr.replace (PurePath.sep fl) "/" "." = ".".
Proof. by destruct fl. Qed.

(** [unix_path] writes a path the remote way. *)
Lemma unix_path_forward_slash_form fl p :
  wf_names fl p -> unix_path fl p = forward_slash_form fl p.
Proof.
  intros Hp. unfold unix_path, forward_slash_form, PurePath.str, os_sep.
  set (s := PurePath.anchor p +:+ PyStr.join (PurePath.sep_str fl) (PurePath.names p)).
  assert (PyStr.replace (PurePath.sep fl) "/" s =
          PyStr.replace (PurePath.sep fl) "/" (PurePath.anchor p) +:+
          PyStr.join "/" (PurePath.names p)) as Hs.
  { unfold s. rewrite replace_app. f_equal. by apply replace_join. }
  rewrite <- Hs. case_bool_decide as He.
  - rewrite He, sep_str_not_dot. reflexivity.
  - rewrite bool_decide_false; [done|]. intros H%replace_eq_nil. done.
Qed.

Lemma unix_path_sep_free fl p :
  PurePath.sep fl <> "/"%char ->
  PyStr.contains (PurePath.sep fl) (unix_path fl p) = false.
Proof.
  intros Hsep. apply contains_replace. destruct fl; [done|reflexivity].
Qed.

(** What [unix_path] makes of a parsed path is rendered with forward
    slashes. *)
Lemma unix_path_forward_slashed fl p :
  wf_names fl p -> forward_slashed fl (unix_path fl p).
Proof.
  intros Hp. split.
  - exists p. split; [done|by apply unix_path_forward_slash_form].
  - apply unix_path_sep_free.
Qed.

(** ** The descriptor a plane saves *)

Lemma emits_strengthen {A} (m : M A) st (Ev : event -> Prop)
    (Post : A -> state -> Prop) (Q : A -> Prop) :
  emits m st Ev Post -> (forall a, (m st).2 = Ret a -> Q a) ->
  emits m st Ev (fun a st' => Post a st' /\ Q a).
Proof.
  intros (evs & Ht & Hev & Hpost) HQ. exists evs. split; [done|]. split; [done|].
  intros a Ha. split; [by apply Hpost|by apply HQ].
Qed.

(** The value of [transfer_binaries] does not depend on the transfers. *)
Lemma transfer_binaries_value w copy sp fast_disk_orig op st op' :
  (transfer_binaries w copy sp fast_disk_orig op st).2 = Ret op' ->
  op' = with_binary_paths (os_flavour w) sp op.
Proof.
  unfold transfer_binaries, with_binary_paths.
  repeat match goal with |- context [if has_key ?d ?k then _ else _] =>
    destruct (has_key d k) end;
    destruct copy; unfold sftp_put, perform, ret, bind;
    repeat match goal with |- context [fault w ?t ?e] =>
      destruct (fault w t e); simpl end;
    simpl; intros H; by simplify_eq.
Qed.

(** The probe returns only once the directory is on the server. *)
Lemma emits_probe_remote_made w (Ev : event -> Prop) path st :
  Ev (SftpStat path) -> Ev (Print "copying files") -> Ev (SftpMkdir path) ->
  emits (probe_remote w path) st Ev
    (fun copy st' => ops_files st' = ops_files st /\ path ∈ remote_dirs st').
Proof.
  intros H1 H2 H3.
  unfold emits, probe_remote, sftp_stat, sftp_mkdir, print, try_except, perform,
    log, ret, bind.
  destruct (fault w (trace st) (SftpStat path)) as [e|]; simpl.
  2: destruct (bool_decide (path ∈ remote_dirs st)) eqn:Hin; simpl.
  2: { exists [SftpStat path]. split; [done|]. split; [by repeat constructor|].
       intros a [= <-]. split; [done|]. by apply bool_decide_eq_true in Hin. }
  all: try destruct (is_IOError e); simpl.
  all: repeat match goal with
         | |- context [fault ?w0 ?t ?e] => destruct (fault w0 t e); simpl
         | |- context [bool_decide ?P] => destruct (bool_decide P); simpl
         end.
  all: rewrite <- ?app_assoc; eexists; (split; [reflexivity|]);
    (split; [by repeat constructor|]); intros a Ha; simplify_eq; simpl;
    try done.
  all: split; [done|set_solver].
Qed.

(** A plane that returns has saved the rewritten descriptor, and its
    directory is on the server; every descriptor it saves, even if it fails
    later, is the rewritten one. *)
Lemma emits_send_plane_descriptor w (Ev : event -> Prop)
    sp0 sfn n_cores mult lsfargs pdir st :
  (forall e, is_NpSave e = false -> Ev e) ->
  (forall ipl op,
     plane_ipl w pdir st = (st, Ret ipl) ->
     ops_files st !! (pdir +:+ "ops.npy") = Some op ->
     Ev (NpSave (pdir +:+ "ops.npy") (rewritten_descriptor w sp0 sfn ipl op))) ->
  emits (send_plane w sp0 sfn n_cores mult lsfargs pdir) st Ev
    (fun _ st' => exists ipl op,
       plane_ipl w pdir st = (st, Ret ipl) /\
       ops_files st !! (pdir +:+ "ops.npy") = Some op /\
       ops_files st' !! (pdir +:+ "ops.npy") =
         Some (rewritten_descriptor w sp0 sfn ipl op) /\
       unix_path (os_flavour w) (save_path w sp0 sfn ipl) ∈ remote_dirs st').
Proof.
  intros Hns Hsave. unfold send_plane.
  eapply emits_bind; [apply emits_plane_ipl|]. simpl. intros ipl ? [-> Hipl].
  eapply emits_bind; [by apply emits_print, Hns|]. simpl. intros _ st1 Hst1.
  eapply emits_bind; [by apply emits_np_load, Hns|]. simpl. intros op st2 [Hst2 Hop].
  eapply emits_bind; [apply emits_getitem|]. simpl. intros v ? [-> Hv].
  eapply emits_bind; [apply emits_Path_of_value|]. simpl. intros fdo ? [-> _].
  eapply emits_bind; [by apply emits_print, Hns|]. simpl. intros _ st3 Hst3.
  assert (ops_files st !! (pdir +:+ "ops.npy") = Some op) as Hop0
    by (destruct Hst1 as [_ <-]; done).
  eapply emits_bind; [by apply emits_probe_remote_made; apply Hns|]. simpl.
  intros copy st4 [Ho4 Hin4].
  eapply emits_bind.
  { match goal with |- emits (transfer_binaries _ _ ?sp _ ?o) _ _ _ =>
      apply emits_strengthen with
        (Q := fun op' => op' = with_binary_paths (os_flavour w) sp o)
    end; [|intros a Ha; exact (transfer_binaries_value _ _ _ _ _ _ _ Ha)].
    eapply emits_mono; [apply emits_transfer_binaries|].
    simpl. intros e [_ He]. apply Hns. by destruct e as [| | | | | | | |[|?] ?| | | | | | |]. }
  simpl. intros op' st5 [Hst5 ->].
  eapply emits_bind.
  { apply emits_save_ops; [exact (Hsave ipl op Hipl Hop0)|].
    intros _. split; by apply Hns. }
  simpl. intros _ st6 [Hd6 Ho6].
  eapply emits_weaken; [apply emits_submit_plane; intros e _ He; by apply Hns|].
  simpl. intros _ st7 [Hd7 Ho7]. exists ipl, op. split; [done|]. split; [done|].
  split.
  - rewrite Ho7, Ho6. by rewrite lookup_insert_eq.
  - rewrite Hd7, Hd6. destruct Hst5 as [-> _]. done.
Qed.

Lemma has_key_insert_eq (d : gmap string value) k v : has_key (<[k := v]> d) k = true.
Proof. unfold has_key. rewrite lookup_insert_eq. by apply bool_decide_eq_true. Qed.

Lemma key_forward_slashed_insert_eq fl (d : gmap string value) k p :
  wf_names fl p -> key_forward_slashed fl (<[k := VStr (unix_path fl p)]> d) k.
Proof.
  intros Hp. exists (unix_path fl p). rewrite lookup_insert_eq.
  split; [done|by apply unix_path_forward_slashed].
Qed.

Lemma key_forward_slashed_insert_ne fl (d : gmap string value) k k' v :
  k <> k' -> key_forward_slashed fl d k' -> key_forward_slashed fl (<[k := v]> d) k'.
Proof. intros Hk (s & Hs & Hf). exists s. by rewrite lookup_insert_ne. Qed.

Ltac key_forward :=
  repeat first
    [ apply key_forward_slashed_insert_eq; repeat apply div_str_wf; assumption
    | apply key_forward_slashed_insert_ne; [done|] ].

(** The descriptor a plane saves has its paths rendered with forward
    slashes. *)
Lemma rewritten_descriptor_paths w sp0 sfn ipl op :
  wf_names (os_flavour w) sp0 ->
  paths_rewritten (os_flavour w) (rewritten_descriptor w sp0 sfn ipl op).
Proof.
  intros Hsp0. unfold rewritten_descriptor, with_binary_paths, save_path.
  rewrite !has_key_insert_ne by done.
  destruct (has_key op "raw_file") eqn:Hraw.
  - destruct (has_key op "raw_file_chan2") eqn:Hraw2.
    + split; [repeat constructor; key_forward|]. split.
      * intros _. split; [key_forward|]. intros _. key_forward.
      * rewrite ?has_key_insert_ne, ?has_key_insert_eq by done. done.
    + split; [repeat constructor; key_forward|]. split.
      * intros _. split; [key_forward|].
        rewrite ?has_key_insert_ne, ?Hraw2 by done. done.
      * rewrite has_key_insert_eq. done.
  - destruct (has_key op "reg_file_chan2") eqn:Hreg2.
    + split; [repeat constructor; key_forward|]. split.
      * rewrite ?has_key_insert_ne, ?Hraw by done. done.
      * intros _ _. key_forward.
    + split; [repeat constructor; key_forward|]. split.
      * rewrite ?has_key_insert_ne, ?Hraw by done. done.
      * rewrite ?has_key_insert_ne, ?Hreg2 by done. done.
Qed.

(** A key [send_jobs] does not assign keeps its value. *)
Lemma rewritten_descriptor_other_keys w sp0 sfn ipl op k :
  k ∉ assigned_keys ->
  rewritten_descriptor w sp0 sfn ipl op !! k = op !! k.
Proof.
  intros Hk. unfold assigned_keys in Hk.
  repeat (apply not_elem_of_cons in Hk as [? Hk]).
  unfold rewritten_descriptor, with_binary_paths.
  repeat match goal with |- context [if ?b then _ else _] => destruct b end;
    by rewrite !lookup_insert_ne by done.
Qed.

(** Whether a descriptor has raw data is not changed by the rewriting. *)
Lemma rewritten_descriptor_has_raw w sp0 sfn ipl op :
  has_key (rewritten_descriptor w sp0 sfn ipl op) "raw_file" = has_key op "raw_file".
Proof.
  unfold rewritten_descriptor, with_binary_paths.
  rewrite !has_key_insert_ne by done.
  destruct (has_key op "raw_file") eqn:Hraw.
  - destruct (has_key _ "raw_file_chan2");
      rewrite ?has_key_insert_ne, ?has_key_insert_eq by done; done.
  - destruct (has_key _ "reg_file_chan2");
      rewrite !has_key_insert_ne by done; done.
Qed.

(** X1. Whenever a plane saves its descriptor, the path-valued keys it has
    rewritten in it ([save_path0], [save_path], [fast_disk], [ops_path],
    [reg_file], and [raw_file], [raw_file_chan2] or [reg_file_chan2] when it
    sets them) are rendered with forward slashes, on a POSIX as on a Windows
    host; a plane that returns leaves such a descriptor in its [ops.npy]. *)
Theorem saved_descriptor_paths_use_forward_slashes
    w local_root server_root save_folder sfn n_cores mult lsfargs pdir st :
  emits
    (send_plane w (save_path0_server w local_root server_root save_folder) sfn
       n_cores mult lsfargs pdir) st
    (fun e => forall path op, e = NpSave path op -> paths_rewritten (os_flavour w) op)
    (fun _ st' => exists op,
       ops_files st' !! (pdir +:+ "ops.npy") = Some op /\
       paths_rewritten (os_flavour w) op).
Proof.
  assert (wf_names (os_flavour w)
            (save_path0_server w local_root server_root save_folder)) as Hwf
    by apply Path_wf.
  eapply emits_weaken; [apply emits_send_plane_descriptor|].
  - intros e He path op ->. done.
  - intros ipl op _ _ path op' [= _ <-]. by apply rewritten_descriptor_paths.
  - simpl. intros _ st' (ipl & op & _ & _ & Hop & _).
    eexists. split; [exact Hop|]. by apply rewritten_descriptor_paths.
Qed.

(** X2. The descriptor a plane saves agrees with the one it loaded on every
    key that is not one of the nine [send_jobs] assigns, and has the key
    ["raw_file"] exactly if the loaded one had it. *)
Theorem saved_descriptor_keeps_other_keys
    w sp0 sfn n_cores mult lsfargs pdir st op :
  ops_files st !! (pdir +:+ "ops.npy") = Some op ->
  emits (send_plane w sp0 sfn n_cores mult lsfargs pdir) st
    (fun e => forall path op', e = NpSave path op' ->
       path = pdir +:+ "ops.npy" /\
       has_key op' "raw_file" = has_key op "raw_file" /\
       forall k, k ∉ assigned_keys -> op' !! k = op !! k)
    (fun _ st' => exists op',
       ops_files st' !! (pdir +:+ "ops.npy") = Some op' /\
       has_key op' "raw_file" = has_key op "raw_file" /\
       forall k, k ∉ assigned_keys -> op' !! k = op !! k).
Proof.
  intros Hop.
  eapply emits_weaken; [apply emits_send_plane_descriptor|].
  - intros e He path op' ->. done.
  - intros ipl op0 _ Hop0 path op' [= <- <-].
    assert (op0 = op) as -> by congruence. split; [done|].
    split; [apply rewritten_descriptor_has_raw|].
    intros k Hk. by apply rewritten_descriptor_other_keys.
  - simpl. intros _ st' (ipl & op0 & _ & Hop0 & Hop' & _).
    assert (op0 = op) as -> by congruence.
    eexists. split; [exact Hop'|]. split; [apply rewritten_descriptor_has_raw|].
    intros k Hk. by apply rewritten_descriptor_other_keys.
Qed.

(** Plane 1 of the laboratory. *)
Lemma saved_descriptor_keeps_other_keys_witness :
  let w := lab_world no_fault in
  let st := lab_state ∅ in
  ops_files st !! "/data/s2p/plane1/ops.npy" = Some lab_op_reg /\
  emits (lab_send_plane w "/data/s2p/plane1/") st
    (fun e => forall path op', e = NpSave path op' ->
       path = "/data/s2p/plane1/" +:+ "ops.npy" /\
       has_key op' "raw_file" = has_key lab_op_reg "raw_file" /\
       forall k, k ∉ assigned_keys -> op' !! k = lab_op_reg !! k)
    (fun _ st' => exists op',
       ops_files st' !! ("/data/s2p/plane1/" +:+ "ops.npy") = Some op' /\
       has_key op' "raw_file" = has_key lab_op_reg "raw_file" /\
       forall k, k ∉ assigned_keys -> op' !! k = lab_op_reg !! k).
Proof.
  split; [reflexivity|].
  apply (saved_descriptor_keeps_other_keys (lab_world no_fault)
           (save_path0_server (lab_world no_fault) "/data" "/srv/lab" "/data/s2p")
           "s2p" 8 (PyInt 2) "" "/data/s2p/plane1/" (lab_state ∅) lab_op_reg).
  reflexivity.
Defined.

Lemma plane_ipl_any_state w pdir st ipl st' :
  plane_ipl w pdir st = (st, Ret ipl) -> plane_ipl w pdir st' = (st', Ret ipl).
Proof.
  unfold plane_ipl, of_option, bind, ret, raise.
  destruct (last _) as [name|]; [|done]. destruct (PyStr.int _); [|done].
  by intros [= ->].
Qed.

(** X3. Dispatching a plane again after a dispatch that returned transfers
    nothing: provided the server answers [stat], the second run of
    [send_plane], from the state the first one left, has no [put] among its
    events, whatever else happens in it. *)
Theorem second_dispatch_transfers_nothing
    w sp0 sfn n_cores mult lsfargs pdir st st' :
  (forall tr path, fault w tr (SftpStat path) = None) ->
  send_plane w sp0 sfn n_cores mult lsfargs pdir st = (st', Ret tt) ->
  exists evs,
    trace (send_plane w sp0 sfn n_cores mult lsfargs pdir st').1 = trace st' ++ evs /\
    Forall (fun e => is_transfer e = false) evs.
Proof.
  intros Hstat Hrun.
  destruct (emits_send_plane_descriptor w (fun _ => True) sp0 sfn n_cores mult lsfargs
              pdir st) as (_ & _ & _ & Hpost); [done..|].
  rewrite Hrun in Hpost. destruct (Hpost tt eq_refl) as (ipl & op & Hipl & _ & _ & Hin).
  simpl in Hin.
  destruct (emits_send_plane w (fun e => is_transfer e = false) false
              sp0 sfn n_cores mult lsfargs pdir st') as (evs & Ht & Hev & _);
    try done.
  - intros _ ipl' Hipl'.
    rewrite (plane_ipl_any_state _ _ _ _ st' Hipl) in Hipl'.
    assert (ipl' = ipl) as -> by congruence. by split.
  - by exists evs.
Qed.

(** Plane 0 of the laboratory, sent to an empty server and sent again. *)
Lemma second_dispatch_transfers_nothing_witness :
  let w := lab_world no_fault in
  let st := lab_state ∅ in
  let st' := (lab_send_plane w "/data/s2p/plane0/" st).1 in
  List.filter is_transfer (drop (length (trace st)) (trace st')) <> [] /\
  exists evs,
    trace (lab_send_plane w "/data/s2p/plane0/" st').1 = trace st' ++ evs /\
    Forall (fun e => is_transfer e = false) evs.
Proof.
  intros w st st'. split; [by vm_compute|].
  apply (second_dispatch_transfers_nothing w
           (save_path0_server w "/data" "/srv/lab" "/data/s2p") "s2p" 8 (PyInt 2) ""
           "/data/s2p/plane0/" st st').
  - reflexivity.
  - by vm_compute.
Defined.

(** ** More on [ssh_connect] *)

(** A server that never answers: 30 attempts, no client. *)
Lemma ssh_connect_at_most_30_witness :
  exists evs r,
    ssh_connect (world_up_after 100) 30 "host" "user" "pw" true empty_state =
      (add_events evs empty_state, r) /\
    r <> Diverge /\ (attempts evs <= 30)%nat /\
    (r = Ret tt ->
     exists k, (k < 30)%nat /\ connect_outcome (world_up_after 100) k = None).
Proof.
  apply (ssh_connect_at_most_30 (world_up_after 100) "host" "user" "pw" true 30
           empty_state).
  lia.
Defined.

Lemma transient_run_pauses host username password verbose i n :
  Forall (fun e => match e with Sleep s => s = 2 | _ => True end)
    (transient_run host username password verbose i n).
Proof.
  revert i. induction n as [|n IH]; intros i; simpl; [constructor|].
  apply Forall_app. split; [|apply IH].
  unfold transient_events, attempt_events. destruct verbose; by repeat constructor.
Qed.

(** X5. [ssh_connect] returns at the first attempt the server accepts: when
    attempt number [k + 1] (with [k < 30]) is accepted, the [k] attempts
    before it having failed for a reason other than authentication, the
    client is returned after exactly [k + 1] attempts and [k] pauses of two
    seconds, and nothing is attempted after the acceptance. *)
Theorem ssh_connect_returns_at_first_acceptance
    w host username password verbose k fuel st :
  (k < 30)%nat -> (k < fuel)%nat ->
  (forall j, (j < k)%nat -> transient w j) ->
  connect_outcome w k = None ->
  let evs :=
    transient_run host username password verbose 0 k ++
    attempt_events host username password verbose k ++
    (if verbose then [Print ("Connected to " +:+ host)] else []) in
  ssh_connect w fuel host username password verbose st = (add_events evs st, Ret tt) /\
  attempts evs = S k /\ sleeps evs = k /\
  Forall (fun e => match e with Sleep s => s = 2 | _ => True end) evs.
Proof.
  intros Hk Hf Htr Hacc evs. split; [|split; [|split]].
  - unfold ssh_connect. replace fuel with (k + S (fuel - S k))%nat by lia.
    rewrite loop_transient_run by (try (intros j Hj; apply Htr); lia).
    rewrite loop_unfold. simpl (0 + k)%nat. rewrite body_connected by done.
    rewrite add_events_add_events. reflexivity.
  - unfold evs.
    rewrite !attempts_app, attempts_transient_run, attempts_attempt_events.
    destruct verbose; unfold attempts; simpl; lia.
  - unfold evs.
    rewrite !sleeps_app, sleeps_transient_run, sleeps_attempt_events.
    destruct verbose; unfold sleeps; simpl; lia.
  - unfold evs. apply Forall_app. split.
    + apply transient_run_pauses.
    + unfold attempt_events. destruct verbose; by repeat constructor.
Qed.

(** A server that comes up after two failed attempts. *)
Lemma ssh_connect_returns_at_first_acceptance_witness :
  exists evs,
    ssh_connect (world_up_after 2) 30 "host" "user" "pw" true empty_state =
      (add_events evs empty_state, Ret tt) /\
    attempts evs = 3%nat /\ sleeps evs = 2%nat.
Proof.
  destruct (ssh_connect_returns_at_first_acceptance (world_up_after 2) "host" "user"
              "pw" true 2 30 empty_state) as (Hrun & Ha & Hs & _).
  - lia.
  - lia.
  - intros j Hj. exists (SSHException "Unable to connect"). split; [|reflexivity].
    simpl. destruct (Nat.ltb_spec j 2); [reflexivity|lia].
  - reflexivity.
  - eexists. split; [exact Hrun|]. split; [exact Ha|exact Hs].
Defined.

(** ** The memory request *)

Lemma to_int_monotone (x y : Q) : (x <= y)%Q -> PyFloat.to_int x <= PyFloat.to_int y.
Proof.
  intros Hxy. unfold PyFloat.to_int.
  destruct (Qle_bool 0 x) eqn:Hx; destruct (Qle_bool 0 y) eqn:Hy.
  - by apply Qfloor_resp_le.
  - apply Qle_bool_iff in Hx.
    assert (Qle_bool 0 y = true) as Hy'
      by (apply Qle_bool_iff; exact (Qle_trans _ _ _ Hx Hxy)).
    congruence.
  - apply Qle_bool_iff in Hy.
    assert (x <= 0)%Q as Hx'.
    { destruct (Qlt_le_dec x 0) as [H|H]; [by apply Qlt_le_weak|].
      apply Qle_bool_iff in H. congruence. }
    apply Z.le_trans with 0.
    + exact (Qceiling_resp_le _ _ Hx').
    + exact (Qfloor_resp_le _ _ Hy).
  - by apply Qceiling_resp_le.
Qed.

(** X6. For a multiplier that is not negative, the memory request put in
    the [bsub] command, [int(mem_request_multiplier * bin_size)], does not
    decrease when the size of the binary file grows, whatever the rounding of
    the floating-point operations, provided it keeps the order and is exact
    at 0. *)
Theorem mem_request_monotone w mult (s1 s2 : Z) :
  monotone_rounding (fround w) -> nonneg_num mult -> s1 <= s2 ->
  mem_request w mult s1 <= mem_request w mult s2.
Proof.
  intros [Hmono Hzero] Hmult Hs. unfold mem_request, bin_size, PyFloat.mul,
    PyFloat.truediv. apply to_int_monotone, Hmono.
  assert (0 <= PyFloat.of_num (fround w) mult)%Q as Hm.
  { destruct mult as [z|q]; simpl in *; [|done].
    rewrite <- Hzero. apply Hmono. unfold Qle. simpl. lia. }
  rewrite !(Qmult_comm (PyFloat.of_num (fround w) mult)).
  apply Qmult_le_compat_r; [|done]. apply Hmono. unfold Qdiv.
  apply Qmult_le_compat_r; [|done]. simpl. apply Hmono. unfold Qle. simpl. lia.
Qed.

(** Exact arithmetic, twice the size: 5 MB ask for 10, 7 MB for 14. *)
Lemma mem_request_monotone_witness :
  mem_request (lab_world no_fault) (PyInt 2) 5000000 <=
  mem_request (lab_world no_fault) (PyInt 2) 7000000.
Proof.
  apply mem_request_monotone.
  - split; [by intros x y H|reflexivity].
  - simpl. lia.
  - lia.
Defined.

(** ** Parsing names again *)

Lemma contains_lstrip a c (s : string) :
  PyStr.contains a s = false -> PyStr.contains a (PyStr.lstrip c s) = false.
Proof.
  induction s as [|x s IH]; simpl; [done|].
  destruct (Ascii.eqb x c); [|done]. intros [_ H]%orb_false_elim. by apply IH.
Qed.

Lemma contains_slice_from a i : forall s : string,
  PyStr.contains a s = false -> PyStr.contains a (PyStr.slice_from i s) = false.
Proof.
  induction i as [|i IH]; intros [|x s]; simpl; try done.
  intros [_ H]%orb_false_elim. by apply IH.
Qed.

Lemma contains_split a c (s : string) :
  PyStr.contains a s = false ->
  Forall (fun x => PyStr.contains a x = false) (PyStr.split c s).
Proof.
  induction s as [|x s IH]; simpl; [by repeat constructor|].
  intros [Hx Hs]%orb_false_elim. specialize (IH Hs).
  destruct (Ascii.eqb x c); [by constructor|].
  destruct (PyStr.split c s) as [|y ys]; [by repeat constructor; simpl; rewrite Hx|].
  apply Forall_cons in IH as [Hy Hys]. constructor; [|done]. simpl. by rewrite Hx.
Qed.

Lemma split_sep_free_id c (x : string) :
  PyStr.contains c x = false -> PyStr.split c x = [x].
Proof.
  induction x as [|a x IH]; simpl; [done|].
  intros [Ha Hx]%orb_false_elim. rewrite Ha, IH by done. done.
Qed.

(** What [splitroot] leaves after drive and root has no character the
    argument lacks. *)
Lemma splitroot_rel_contains fl a (part : string) :
  PyStr.contains a part = false ->
  PyStr.contains a (PurePath.splitroot fl part).2 = false.
Proof.
  intros Ha. destruct fl; simpl.
  - unfold PurePath.splitroot_posix. destruct part as [|c part]; [done|].
    assert (PyStr.contains a (PyStr.lstrip "/" (String c part)) = false) as Hs
      by (by apply contains_lstrip).
    destruct (Ascii.eqb c "/"); [|exact Ha].
    destruct (_ =? 2)%nat; exact Hs.
  - unfold PurePath.splitroot_windows.
    repeat (match goal with
            | |- context [if ?b then _ else _] => destruct b
            | |- context [PyStr.find_from ?c ?n ?s] => destruct (PyStr.find_from c n s)
            end; cbv beta iota zeta delta [snd]);
      repeat first [apply contains_lstrip | apply contains_slice_from]; done.
Qed.

Lemma normsep_altsep_free fl a (part : string) :
  PurePath.altsep fl = Some a ->
  PyStr.contains a (PurePath.normsep fl part) = false.
Proof.
  intros Halt. unfold PurePath.normsep. rewrite Halt.
  apply contains_replace. destruct fl; simpl in Halt; [done|].
  injection Halt as <-. reflexivity.
Qed.

Lemma rel_names_are_names fl (rel : string) :
  match PurePath.altsep fl with
  | Some a => PyStr.contains a rel = false
  | None => True
  end ->
  Forall (is_name fl) (PurePath.rel_names fl rel).
Proof.
  intros Halt. unfold PurePath.rel_names. apply Forall_forall.
  intros x [[Hne Hdot] Hx]%list_elem_of_filter.
  split; [done|]. split; [done|]. split.
  - pose proof (split_sep_free (PurePath.sep fl) rel) as H.
    rewrite Forall_forall in H. by apply H.
  - destruct (PurePath.altsep fl) as [a|]; [|done].
    pose proof (contains_split a (PurePath.sep fl) rel Halt) as H.
    rewrite Forall_forall in H. by apply H.
Qed.

Lemma parse_rev_names fl rparts : forall acc,
  Forall (is_name fl) acc ->
  Forall (is_name fl) (PurePath.names (PurePath.parse_rev fl rparts acc)).
Proof.
  induction rparts as [|part before IH]; intros acc Hacc; simpl; [done|].
  case_bool_decide; [by apply IH|].
  destruct (PurePath.splitroot fl (PurePath.normsep fl part)) as [[d r] rel] eqn:Hsplit.
  assert (Forall (is_name fl) (PurePath.rel_names fl rel ++ acc)) as Hacc'.
  { apply Forall_app. split; [|done]. apply rel_names_are_names.
    destruct (PurePath.altsep fl) as [a|] eqn:Halt; [|done].
    change rel with (d, r, rel).2. rewrite <- Hsplit.
    apply splitroot_rel_contains. by apply normsep_altsep_free. }
  destruct (bool_decide (d = "") && bool_decide (r = "")); [by apply IH|done].
Qed.

(** The names of a parsed path are names. *)
Lemma Path_names fl args : Forall (is_name fl) (PurePath.names (PurePath.Path fl args)).
Proof. apply parse_rev_names. constructor. Qed.
